(** * AICS: provider locator, feature registry, facade, bulk generator

    A shallow embedding of the Python sources under [src/aics]:

    - [providers/__init__.py], [providers/groq.py], [providers/ollama.py],
      [providers/openrouter.py]  (module [Providers]);
    - [core/feature_registry.py]  (module [FeatureRegistry]);
    - [feature_manager.py]  (module [FeatureManager]);
    - [features/file_management/__init__.py]  (module [FileManagement]);
    - [features/ai_integration/__init__.py]  (module [AiIntegration]);
    - [features/bulk_generation/__init__.py]  (module [BulkGeneration]).

    Python values are modelled by the small runtime of module [Py]
    (insertion-ordered dictionaries, exceptions with their class hierarchy,
    decoded JSON values), [posixpath] by module [OsPath] and the parts of [os]
    the program calls by module [Os].  Stateful code runs in the monad [M]
    over a [World]: the process environment, the class attribute
    [FeatureRegistry._features], the terminal, the file system and a log of
    the calls that cross a component boundary. *)

From Stdlib Require Import ZArith QArith Ascii String List.
From stdpp Require Import gmap strings list pretty.

Open Scope string_scope.
Open Scope Z_scope.
Open Scope list_scope.

(** * The Python runtime *)

Module Py.

(** ** Dictionaries

    A [dict] keeps its keys in insertion order and holds each key once:
    an association list whose keys are pairwise distinct ([dict_wf]). *)

Section Dict.
Context {V : Type}.

Definition Dict := list (string * V).

(** [d.get(k)] *)
Fixpoint dict_get (d : Dict) (k : string) : option V :=
  match d with
  | [] => None
  | (k', v) :: d' => if decide (k' = k) then Some v else dict_get d' k
  end.

(** [d[k] = v]: an existing key keeps its position. *)
Fixpoint dict_set (d : Dict) (k : string) (v : V) : Dict :=
  match d with
  | [] => [(k, v)]
  | (k', v') :: d' =>
      if decide (k' = k) then (k, v) :: d' else (k', v') :: dict_set d' k v
  end.

(** [d.pop(k, None)] *)
Definition dict_pop (d : Dict) (k : string) : Dict :=
  filter (λ kv, kv.1 ≠ k) d.

(** [list(d.keys())] *)
Definition dict_keys (d : Dict) : list string := d.*1.

(** [k in d] *)
Definition dict_contains (d : Dict) (k : string) : bool :=
  bool_decide (k ∈ dict_keys d).

Definition dict_wf (d : Dict) : Prop := NoDup (dict_keys d).
End Dict.

Arguments Dict V : clear implicits.

(** ** Exceptions *)

Inductive ExcClass :=
| Exception
| ValueError | JSONDecodeError
| UnicodeError | UnicodeDecodeError
| RuntimeError | Abort               (* click.exceptions.Abort *)
| ImportError | ModuleNotFoundError
| AttributeError | TypeError
| LookupError | KeyError | IndexError
| OSError | FileNotFoundError | FileExistsError
| IsADirectoryError | NotADirectoryError
| RequestError.                     (* httpx: the request got no response *)

Global Instance ExcClass_eq_dec : EqDecision ExcClass.
Proof. solve_decision. Defined.

(** The direct base class; [Exception] is the root of what the program
    catches. *)
Definition base (c : ExcClass) : option ExcClass :=
  match c with
  | Exception => None
  | JSONDecodeError | UnicodeError => Some ValueError
  | UnicodeDecodeError => Some UnicodeError
  | Abort => Some RuntimeError
  | ModuleNotFoundError => Some ImportError
  | KeyError | IndexError => Some LookupError
  | FileNotFoundError | FileExistsError
  | IsADirectoryError | NotADirectoryError => Some OSError
  | _ => Some Exception
  end.

Fixpoint issubclass_upto (n : nat) (c d : ExcClass) : bool :=
  bool_decide (c = d) ||
  match n, base c with
  | S n', Some b => issubclass_upto n' b d
  | _, _ => false
  end.

(** The hierarchy above has depth 3. *)
Definition issubclass : ExcClass → ExcClass → bool := issubclass_upto 3.

(** ** Decoded JSON, as [json.loads] and [response.json()] return it *)

Unset Elimination Schemes.
Inductive JValue :=
| JNull
| JBool (b : bool)
| JInt (z : Z)
| JFloat (shown : string)          (* a float, by its [str()] *)
| JStr (s : string)
| JArr (items : list JValue)
| JObj (entries : list (string * JValue)).
Set Elimination Schemes.

Definition type_name (v : JValue) : string :=
  match v with
  | JNull => "NoneType"
  | JBool _ => "bool"
  | JInt _ => "int"
  | JFloat _ => "float"
  | JStr _ => "str"
  | JArr _ => "list"
  | JObj _ => "dict"
  end.

(** An [httpx.Response]: the status, the body, and what [.json()] gives
    ([None] when it raises a [ValueError], which decoding errors are). *)
Record Response := {
  status_code : Z;
  text : string;
  json : option JValue
}.

(** An exception instance with its [str(e)].  An [httpx.HTTPStatusError]
    carries the response it was raised for; its bases are [httpx]'s own
    and [Exception]. *)
Inductive Exc :=
| Exc_plain (c : ExcClass) (msg : string)
| Exc_http_status (msg : string) (response : Response).

Definition mk_exc : ExcClass → string → Exc := Exc_plain.

Definition exc_str (e : Exc) : string :=
  match e with
  | Exc_plain _ msg | Exc_http_status msg _ => msg
  end.

Definition isinstance (e : Exc) (c : ExcClass) : bool :=
  match e with
  | Exc_plain c' _ => issubclass c' c
  | Exc_http_status _ _ => bool_decide (c = Exception)
  end.

Inductive Result (A : Type) :=
| Ok (a : A)
| Raise (e : Exc).
Arguments Ok {A} a.
Arguments Raise {A} e.

(** ** Strings *)

Definition nl : string := String "010"%char "".

(** The double quote. *)
Definition dq : string := String "034"%char "".

(** [sep.join(parts)] *)
Fixpoint str_join (sep : string) (parts : list string) : string :=
  match parts with
  | [] => ""
  | [s] => s
  | s :: rest => s +:+ sep +:+ str_join sep rest
  end.

Definition startswith (s pre : string) : bool := String.prefix pre s.

Fixpoint endswith_char (s : string) (c : ascii) : bool :=
  match s with
  | "" => false
  | String a "" => bool_decide (a = c)
  | String _ s' => endswith_char s' c
  end.

(** [sub in s] *)
Fixpoint str_contains (s sub : string) : bool :=
  String.prefix sub s ||
  match s with
  | "" => false
  | String _ s' => str_contains s' sub
  end.

(** [s.lower()], on the ASCII letters: enough to compare with an ASCII
    literal, since no other character lowers to an ASCII letter of
    [".csv"] or [".json"]. *)
Definition lower_char (c : ascii) : ascii :=
  let n := nat_of_ascii c in
  if ((65 <=? n) && (n <=? 90))%nat then ascii_of_nat (n + 32) else c.

Fixpoint lower (s : string) : string :=
  match s with
  | "" => ""
  | String c s' => String (lower_char c) (lower s')
  end.

(** ** Text files

    A [str] is held as its UTF-8 encoding, one character of the string
    per byte, and a text file as its bytes; the locale's encoding is
    UTF-8. *)

Definition byte_in (lo hi : nat) (c : ascii) : bool :=
  ((lo <=? nat_of_ascii c) && (nat_of_ascii c <=? hi))%nat.

Definition continuation : ascii → bool := byte_in 128 191.

(** The second byte of a three-byte sequence: no overlong form after
    [E0], no surrogate after [ED]. *)
Definition second_of_3 (c c1 : ascii) : bool :=
  if byte_in 224 224 c then byte_in 160 191 c1
  else if byte_in 237 237 c then byte_in 128 159 c1
  else continuation c1.

(** The second byte of a four-byte sequence: no overlong form after
    [F0], nothing above U+10FFFF after [F4]. *)
Definition second_of_4 (c c1 : ascii) : bool :=
  if byte_in 240 240 c then byte_in 144 191 c1
  else if byte_in 244 244 c then byte_in 128 143 c1
  else continuation c1.

(** Whether the strict [utf-8] codec decodes these bytes. *)
Fixpoint utf8_valid (s : string) : bool :=
  match s with
  | "" => true
  | String c s1 =>
      if byte_in 0 127 c then utf8_valid s1
      else
        match s1 with
        | "" => false
        | String c1 s2 =>
            if byte_in 194 223 c then continuation c1 && utf8_valid s2
            else
              match s2 with
              | "" => false
              | String c2 s3 =>
                  if byte_in 224 239 c
                  then second_of_3 c c1 && continuation c2 && utf8_valid s3
                  else
                    match s3 with
                    | "" => false
                    | String c3 s4 =>
                        byte_in 240 244 c && second_of_4 c c1
                        && continuation c2 && continuation c3 && utf8_valid s4
                    end
              end
        end
  end.

Definition CR : ascii := "013"%char.
Definition LF : ascii := "010"%char.

(** Reading in text mode with [newline=None]: a carriage return, with
    the line feed that follows it if there is one, is read as one line
    feed. *)
Fixpoint universal_newlines (s : string) : string :=
  match s with
  | "" => ""
  | String c s1 =>
      if decide (c = CR)
      then String LF
             match s1 with
             | "" => ""
             | String c1 s2 =>
                 if decide (c1 = LF) then universal_newlines s2
                 else universal_newlines s1
             end
      else String c (universal_newlines s1)
  end.

End Py.

(** * [posixpath] *)

Module OsPath.

Definition sep : ascii := "/"%char.

Definition chars : string → list ascii := list_ascii_of_string.
Definition str : list ascii → string := string_of_list_ascii.

(** [(p[:i], p[i:])] for [i = p.rfind('/') + 1]. *)
Fixpoint cut_last_sep (p : list ascii) : list ascii * list ascii :=
  match p with
  | [] => ([], [])
  | c :: p' =>
      match cut_last_sep p' with
      | ([], t) => if decide (c = sep) then ([c], t) else ([], c :: t)
      | (h, t) => (c :: h, t)
      end
  end.

(** [h.rstrip('/')] *)
Fixpoint rstrip_sep (h : list ascii) : list ascii :=
  match h with
  | [] => []
  | c :: h' =>
      match rstrip_sep h' with
      | [] => if decide (c = sep) then [] else [c]
      | r => c :: r
      end
  end.

(** [head != sep * len(head)] *)
Definition not_all_sep (h : list ascii) : bool :=
  negb (forallb (λ c, bool_decide (c = sep)) h).

(** [posixpath.dirname]:
<<
    i = p.rfind(sep) + 1
    head = p[:i]
    if head and head != sep*len(head):
        head = head.rstrip(sep)
    return head
>> *)
Definition dirname (p : string) : string :=
  let head := (cut_last_sep (chars p)).1 in
  str (if not_all_sep head then rstrip_sep head else head).

(** [posixpath.basename]: [p[p.rfind(sep) + 1:]] *)
Definition basename (p : string) : string :=
  str (cut_last_sep (chars p)).2.

(** [posixpath.join(a, b)]:
<<
    if b.startswith(sep): path = b
    elif not path or path.endswith(sep): path += b
    else: path += sep + b
>> *)
Definition join (a b : string) : string :=
  if Py.startswith b "/" then b
  else if bool_decide (a = "") || Py.endswith_char a sep then a +:+ b
  else a +:+ "/" +:+ b.

Definition isabs (p : string) : bool := Py.startswith p "/".

(** [p.split('/')] *)
Fixpoint split_sep (p : list ascii) : list (list ascii) :=
  match p with
  | [] => [[]]
  | c :: p' =>
      if decide (c = sep) then [] :: split_sep p'
      else match split_sep p' with
           | w :: ws => (c :: w) :: ws
           | [] => [[c]]
           end
  end.

(** The names a path walks through: empty components and ["."] name
    nothing.  [".."] is kept as a name: it is not resolved here, and what
    is proved about the file system is about paths without it. *)
Definition names (ws : list (list ascii)) : list string :=
  filter (λ s, s ≠ "" ∧ s ≠ ".") (str <$> ws).

Definition components (p : string) : list string :=
  names (split_sep (chars p)).

Definition extsep : ascii := "."%char.

(** [(t[:j], t[j:])] for [j = t.rfind('.')], and [(t, "")] when [t] has
    no dot. *)
Fixpoint cut_last_dot (t : list ascii) : list ascii * list ascii :=
  match t with
  | [] => ([], [])
  | c :: t' =>
      match cut_last_dot t' with
      | (pre, []) => if decide (c = extsep) then ([], c :: t') else (c :: pre, [])
      | (pre, ext) => (c :: pre, ext)
      end
  end.

(** [posixpath.splitext] ([genericpath._splitext]):
<<
      sepIndex = p.rfind(sep)
      dotIndex = p.rfind(extsep)
      if dotIndex > sepIndex:
          # skip all leading dots
          filenameIndex = sepIndex + 1
          while filenameIndex < dotIndex:
              if p[filenameIndex:filenameIndex+1] != extsep:
                  return p[:dotIndex], p[dotIndex:]
              filenameIndex += 1
      return p, p[:0]
>> *)
Definition splitext (p : string) : string * string :=
  let '(head, tail) := cut_last_sep (chars p) in
  let '(pre, ext) := cut_last_dot tail in
  if negb (bool_decide (ext = []))
     && negb (forallb (λ c, bool_decide (c = extsep)) pre)
  then (str (head ++ pre), str ext)
  else (p, "").

End OsPath.

(** * The file system behind [os.makedirs] and [open]

    The two library calls [FileManager.write_file] makes, by their
    documented behaviour on a POSIX system, over a file system that knows
    which paths are directories and what each regular file holds. *)

Module Os.
Import Py.

(** Where a path points: absolute or relative to the working directory,
    and the names walked through. *)
Definition Key : Type := bool * list string.

Definition key (p : string) : Key := (OsPath.isabs p, OsPath.components p).

Record FS := {
  dirs : gset Key;
  files : gmap Key string
}.

Definition empty_fs : FS := {| dirs := ∅; files := ∅ |}.

(** The root and the working directory always exist. *)
Definition isdir (fs : FS) (k : Key) : bool :=
  bool_decide (k.2 = [] ∨ k ∈ dirs fs).

(** The directory itself and the directories above it, outermost first. *)
Definition chain (k : Key) : list Key :=
  (λ n, (k.1, take n k.2)) <$> seq 1 (length k.2).

Definition errno2 (name : string) : Exc :=
  mk_exc FileNotFoundError
    ("[Errno 2] No such file or directory: '" +:+ name +:+ "'").

(** [os.makedirs(name, exist_ok=True)]: [mkdir('')] fails with [ENOENT];
    a regular file on the way fails the call; every missing directory of
    the chain is created and existing ones are kept. *)
Definition makedirs (name : string) (fs : FS) : Result FS :=
  if decide (name = "") then Raise (errno2 name)
  else
    match filter (λ k, is_Some (files fs !! k)) (chain (key name)) with
    | [] => Ok {| dirs := dirs fs ∪ list_to_set (chain (key name));
                  files := files fs |}
    | k :: _ =>
        if decide (k = key name)
        then Raise (mk_exc FileExistsError
                      ("[Errno 17] File exists: '" +:+ name +:+ "'"))
        else Raise (mk_exc NotADirectoryError
                      ("[Errno 20] Not a directory: '" +:+ name +:+ "'"))
    end.

(** [with open(path, 'w') as file: file.write(content)]: the path must
    name a file position (a last component that is a name), not a
    directory, inside an existing directory; the file is created or
    truncated and then holds [content]. *)
Definition open_write (path content : string) (fs : FS) : Result FS :=
  if decide (path = "") then Raise (errno2 path)
  else if isdir fs (key path)
          || bool_decide (key path = key (OsPath.dirname path))
          || bool_decide (OsPath.basename path = "..")
  then Raise (mk_exc IsADirectoryError
                ("[Errno 21] Is a directory: '" +:+ path +:+ "'"))
  else if negb (isdir fs (key (OsPath.dirname path)))
  then Raise (errno2 path)
  else Ok {| dirs := dirs fs; files := <[key path := content]> (files fs) |}.

Definition read (fs : FS) (path : string) : option string :=
  files fs !! key path.

(** [os.path.exists(path)] *)
Definition exists_ (path : string) (fs : FS) : bool :=
  negb (bool_decide (path = ""))
  && (isdir fs (key path) || bool_decide (is_Some (files fs !! key path))).

(** [with open(path, 'r') as file: return file.read()]: a directory
    cannot be read; a path that passes through a regular file is not a
    directory to walk into; a missing file is not found; the bytes of the
    file are decoded, which fails with a [UnicodeDecodeError] of message
    [decode_error bytes] when they are not valid, and the text is read
    with universal newlines. *)
Definition open_read (decode_error : string → string) (path : string) (fs : FS)
  : Result string :=
  if decide (path = "") then Raise (errno2 path)
  else if isdir fs (key path)
  then Raise (mk_exc IsADirectoryError
                ("[Errno 21] Is a directory: '" +:+ path +:+ "'"))
  else
    match filter (λ k, is_Some (files fs !! k)) (chain (key (OsPath.dirname path))) with
    | _ :: _ =>
        Raise (mk_exc NotADirectoryError
                 ("[Errno 20] Not a directory: '" +:+ path +:+ "'"))
    | [] =>
        match files fs !! key path with
        | None => Raise (errno2 path)
        | Some bytes =>
            if utf8_valid bytes then Ok (universal_newlines bytes)
            else Raise (mk_exc UnicodeDecodeError (decode_error bytes))
        end
    end.

(** A later state of a file system in which nothing was removed: every
    directory is still one and every file is still there (its content may
    have been replaced). *)
Definition grows (fs fs' : FS) : Prop :=
  dirs fs ⊆ dirs fs' ∧ ∀ k, is_Some (files fs !! k) → is_Some (files fs' !! k).

End Os.

(** * The world the program runs in *)

Module Run.
Import Py.

(** A call that crosses a component boundary. *)
Inductive Event :=
| EvGenerate (model prompt : string)      (* provider.generate_code(model, prompt) *)
| EvWriteFile (path content : string).    (* file_manager.write_file(path, content) *)

(** A value of [FeatureRegistry._features]:
    [{'class': feature_class, 'dependencies': [...]}], the class by its
    name. *)
Record FeatureInfo := {
  fi_class : string;
  fi_dependencies : list string
}.

Record World := {
  environ : gmap string string;        (* os.environ *)
  next_id : nat;                       (* identity of the next object *)
  features : Dict FeatureInfo;         (* FeatureRegistry._features *)
  stdout : list string;                (* lines written by click.echo *)
  fs : Os.FS;
  trace : list Event
}.

Definition set_next_id (n : nat) (w : World) : World :=
  {| environ := environ w; next_id := n; features := features w;
     stdout := stdout w; fs := fs w; trace := trace w |}.
Definition set_features (f : Dict FeatureInfo) (w : World) : World :=
  {| environ := environ w; next_id := next_id w; features := f;
     stdout := stdout w; fs := fs w; trace := trace w |}.
Definition set_stdout (o : list string) (w : World) : World :=
  {| environ := environ w; next_id := next_id w; features := features w;
     stdout := o; fs := fs w; trace := trace w |}.
Definition set_fs (s : Os.FS) (w : World) : World :=
  {| environ := environ w; next_id := next_id w; features := features w;
     stdout := stdout w; fs := s; trace := trace w |}.
Definition set_trace (t : list Event) (w : World) : World :=
  {| environ := environ w; next_id := next_id w; features := features w;
     stdout := stdout w; fs := fs w; trace := t |}.

(** Computations that read and change the world and return or raise. *)
Definition M (A : Type) : Type := World → Result A * World.

Definition ret {A} (a : A) : M A := λ w, (Ok a, w).

Definition bind {A B} (m : M A) (k : A → M B) : M B :=
  λ w, match m w with
       | (Ok a, w') => k a w'
       | (Raise e, w') => (Raise e, w')
       end.

(** [x ← m; k] and [m ;; k] below are [bind]. *)
Global Instance M_ret : MRet M := @ret.
Global Instance M_bind : MBind M := λ A B k m, bind m k.

Definition raise {A} (e : Exc) : M A := λ w, (Raise e, w).

(** [try: body  except ...: handler]: [handler e] is [None] when no
    [except] clause matches [e]; what a clause raises is not offered to
    its sibling clauses. *)
Definition try_except {A} (body : M A) (handler : Exc → option (M A)) : M A :=
  λ w, match body w with
       | (Ok a, w') => (Ok a, w')
       | (Raise e, w') =>
           match handler e with
           | Some h => h w'
           | None => (Raise e, w')
           end
       end.

(** Log a boundary call, then make it. *)
Definition traced {A} (ev : Event) (m : M A) : M A :=
  λ w, m (set_trace (trace w ++ [ev]) w).

Definition lift_fs (f : Os.FS → Result Os.FS) : M unit :=
  λ w, match f (fs w) with
       | Ok s => (Ok tt, set_fs s w)
       | Raise e => (Raise e, w)
       end.

(** [click.echo(line)] *)
Definition echo (line : string) : M unit :=
  λ w, (Ok tt, set_stdout (stdout w ++ [line]) w).

(** [os.getenv(name)] *)
Definition getenv (name : string) : M (option string) :=
  λ w, (Ok (environ w !! name), w).

(** Allocation of the instance a class call initialises. *)
Definition new_object : M nat :=
  λ w, (Ok (next_id w), set_next_id (S (next_id w)) w).

End Run.

(** * [providers/] *)

Module Providers.
Import Py Run.

Inductive ProviderClass := GroqProvider | OllamaProvider | OpenRouterProvider.

Global Instance ProviderClass_eq_dec : EqDecision ProviderClass.
Proof. solve_decision. Defined.

(** A provider instance: [obj_id] is its identity (what [is] compares);
    [api_key] is [None] for [OllamaProvider], which has no such attribute,
    and when [os.getenv] returned [None]. *)
Record Provider := {
  obj_id : nat;
  cls : ProviderClass;
  api_key : option string;
  base_url : string
}.

(** [not self.api_key]: [None] and [''] are falsy. *)
Definition falsy (v : option string) : bool :=
  match v with
  | None => true
  | Some s => bool_decide (s = "")
  end.

(** [GroqProvider.__init__] (groq.py 36-40) *)
Definition GroqProvider_init (self : nat) : M Provider :=
  k ← getenv "GROQ_API_KEY";
  if falsy k
  then raise (mk_exc ValueError "GROQ_API_KEY environment variable is not set")
  else ret {| obj_id := self; cls := GroqProvider; api_key := k;
              base_url := "https://api.groq.com/openai/v1" |}.

(** [OllamaProvider.__init__] (ollama.py 9-10) *)
Definition OllamaProvider_init (self : nat) : M Provider :=
  ret {| obj_id := self; cls := OllamaProvider; api_key := None;
         base_url := "http://localhost:11434" |}.

(** [OpenRouterProvider.__init__] (openrouter.py 10-12) *)
Definition OpenRouterProvider_init (self : nat) : M Provider :=
  k ← getenv "OPENROUTER_API_KEY";
  ret {| obj_id := self; cls := OpenRouterProvider; api_key := k;
         base_url := "https://openrouter.ai/api/v1" |}.

(** [provider_class()] *)
Definition construct (c : ProviderClass) : M Provider :=
  self ← new_object;
  match c with
  | GroqProvider => GroqProvider_init self
  | OllamaProvider => OllamaProvider_init self
  | OpenRouterProvider => OpenRouterProvider_init self
  end.

(** [PROVIDERS] (providers/__init__.py 7-11) *)
Definition PROVIDERS : Dict ProviderClass :=
  [("groq", GroqProvider); ("ollama", OllamaProvider);
   ("openrouter", OpenRouterProvider)].

(** [get_provider] (providers/__init__.py 13-17); a class is truthy, so
    [not provider_class] holds exactly when [.get] found nothing. *)
Definition get_provider (name : string) : M Provider :=
  match dict_get PROVIDERS name with
  | None => raise (mk_exc ValueError ("Unknown provider: " +:+ name))
  | Some provider_class => construct provider_class
  end.

Definition available_models (self : Provider) : list string :=
  match cls self with
  | GroqProvider =>
      ["llama-3.1-70b-versatile"; "llama-3.1-8b-instant";
       "mixtral-8x7b-32768"; "gemma-7b-it"]
  | OllamaProvider =>
      ["Replete-Coder-Qwen-1.5b-Q6_K:latest"; "qwen2-1_5b-instruct-q8_0:latest"]
  | OpenRouterProvider =>
      ["nousresearch/hermes-3-llama-3.1-405b:free";
       "mistralai/mistral-7b-instruct:free";
       "meta-llama/llama-3.1-8b-instruct:free";
       "microsoft/phi-3-mini-128k-instruct:free";
       "qwen/qwen2-7b-instruct:free"]
  end.

Definition default_model (self : Provider) : string :=
  match cls self with
  | GroqProvider => "llama-3.1-8b-instant"
  | OllamaProvider => "Replete-Coder-Qwen-1.5b-Q6_K:latest"
  | OpenRouterProvider => "qwen/qwen2-7b-instruct:free"
  end.

(** A value of a configuration record; a float literal by its decimal
    value. *)
Inductive CfgVal := CfgInt (z : Z) | CfgFloat (q : Q).

Definition cfg (max_tokens : Z) (temperature : Q) : Dict CfgVal :=
  [("max_tokens", CfgInt max_tokens); ("temperature", CfgFloat temperature)].

(** The [configs] literal of each [get_model_config]. *)
Definition configs (c : ProviderClass) : Dict (Dict CfgVal) :=
  match c with
  | GroqProvider =>
      [("llama-3.1-70b-versatile", cfg 4096 (2 # 10));
       ("llama-3.1-8b-instant", cfg 4096 (7 # 10));
       ("mixtral-8x7b-32768", cfg 32768 (8 # 10));
       ("gemma-7b-it", cfg 8192 (7 # 10))]
  | OllamaProvider =>
      [("Replete-Coder-Qwen-1.5b-Q6_K:latest", cfg 2048 (3 # 10));
       ("qwen2-1_5b-instruct-q8_0:latest", cfg 2048 (3 # 10))]
  | OpenRouterProvider =>
      [("nousresearch/hermes-3-llama-3.1-405b:free", cfg 4096 (0 # 10));
       ("meta-llama/llama-3.1-8b-instruct:free", cfg 4096 (3 # 10));
       ("mistralai/mistral-7b-instruct:free", cfg 4096 (3 # 10));
       ("microsoft/phi-3-mini-128k-instruct:free", cfg 4096 (3 # 10));
       ("qwen/qwen2-7b-instruct:free", cfg 4096 (3 # 10))]
  end.

(** [get_model_config]: [configs.get(model_name, {})] *)
Definition get_model_config (self : Provider) (model_name : string)
  : Dict CfgVal :=
  default [] (dict_get (configs (cls self)) model_name).

End Providers.

(** * [core/feature_registry.py] *)

Module FeatureRegistry.
Import Py Run.

(** [register(name, dependencies=None)(feature_class)]:
    [cls._features[name] = {'class': feature_class,
                            'dependencies': dependencies or []}] *)
Definition register (name : string) (dependencies : option (list string))
    (feature_class : string) (_features : Dict FeatureInfo) : Dict FeatureInfo :=
  dict_set _features name
    {| fi_class := feature_class;
       fi_dependencies := default [] dependencies |}.

(** [cls._features.get(name, {}).get('class')] *)
Definition get_feature (_features : Dict FeatureInfo) (name : string)
  : option string :=
  fi_class <$> dict_get _features name.

(** [feature_name in cls._features] *)
Definition is_feature_enabled (_features : Dict FeatureInfo)
    (feature_name : string) : bool :=
  dict_contains _features feature_name.

(** [list(cls._features.keys())] *)
Definition get_all_features (_features : Dict FeatureInfo) : list string :=
  dict_keys _features.

(** [cls._features.get(feature_name, {}).get('dependencies', [])] *)
Definition get_feature_dependencies (_features : Dict FeatureInfo)
    (feature_name : string) : list string :=
  match dict_get _features feature_name with
  | Some info => fi_dependencies info
  | None => []
  end.

(** [[f for f, info in cls._features.items()
       if feature_name in info['dependencies']]] *)
Definition get_dependent_features (_features : Dict FeatureInfo)
    (feature_name : string) : list string :=
  (filter (λ item, feature_name ∈ fi_dependencies item.2) _features).*1.

End FeatureRegistry.

(** * [feature_manager.py] *)

Module FeatureManager.
Import Py Run FeatureRegistry.

(** What [importlib.import_module] returns, as far as [add_feature]
    looks at it: the [setup] attribute, when the module has one. *)
Record PyModule := { mod_setup : option (M unit) }.

Section Commands.
(** [importlib.import_module]: runs the module, which may register
    features, and returns it or raises. *)
Variable import_module : string → M PyModule.

(** [add_feature] (feature_manager.py 13-22): the [try] covers the
    import, [setup()] and the success message; only [ImportError] is
    caught. *)
Definition add_feature (feature_name : string) : M unit :=
  let feature_path := "features." +:+ feature_name in
  try_except
    (module ← import_module feature_path;
     match mod_setup module with
     | Some setup => setup
     | None => ret tt
     end;;
     echo ("Feature '" +:+ feature_name +:+ "' added successfully."))
    (λ e, if isinstance e ImportError
          then Some (echo ("Error: Feature '" +:+ feature_name +:+ "' not found."))
          else None).
End Commands.

(** [for dep in dependent_features: click.echo(f"- {dep}")] *)
Fixpoint echo_each (deps : list string) : M unit :=
  match deps with
  | [] => ret tt
  | dep :: rest => echo ("- " +:+ dep);; echo_each rest
  end.

(** [FeatureRegistry._features.pop(feature_name, None)] *)
Definition features_pop (feature_name : string) : M unit :=
  λ w, (Ok tt, set_features (dict_pop (features w) feature_name) w).

(** [remove_feature] (feature_manager.py 26-41); [answer] is what the
    operator replies if [click.confirm] asks. *)
Definition remove_feature (answer : bool) (feature_name : string) : M unit :=
  λ w,
    if negb (is_feature_enabled (features w) feature_name)
    then echo ("Error: Feature '" +:+ feature_name +:+ "' is not enabled.") w
    else
      let dependent_features := get_dependent_features (features w) feature_name in
      let removal :=
        features_pop feature_name;;
        echo ("Feature '" +:+ feature_name +:+ "' removed successfully.") in
      match dependent_features with
      | [] => removal w
      | _ =>
          (echo ("Warning: The following features depend on '"
                 +:+ feature_name +:+ "':");;
           echo_each dependent_features;;
           if answer then removal else ret tt) w
      end.

(** [remove_feature] (feature_manager.py 26-41) with [click.confirm] as
    the call it is: [confirm] asks the question and returns the reply, or
    raises ([click.Abort]) when no reply can be read.  [remove_feature
    answer] above is the run in which the reply [answer] is read. *)
Definition remove_feature_prompted (confirm : M bool) (feature_name : string)
  : M unit :=
  λ w,
    if negb (is_feature_enabled (features w) feature_name)
    then echo ("Error: Feature '" +:+ feature_name +:+ "' is not enabled.") w
    else
      let dependent_features := get_dependent_features (features w) feature_name in
      let removal :=
        features_pop feature_name;;
        echo ("Feature '" +:+ feature_name +:+ "' removed successfully.") in
      match dependent_features with
      | [] => removal w
      | _ =>
          (echo ("Warning: The following features depend on '"
                 +:+ feature_name +:+ "':");;
           echo_each dependent_features;;
           proceed ← confirm;
           if (proceed : bool) then removal else ret tt) w
      end.

(** The loop of [list_features]. *)
Fixpoint list_each (names : list string) : M unit :=
  match names with
  | [] => ret tt
  | feature :: rest =>
      (λ w,
         let dependencies := get_feature_dependencies (features w) feature in
         (echo ("- " +:+ feature);;
          match dependencies with
          | [] => ret tt
          | _ => echo ("  Dependencies: " +:+ str_join ", " dependencies)
          end) w);;
      list_each rest
  end.

(** [list_features] (feature_manager.py 44-52) *)
Definition list_features : M unit :=
  λ w,
    let names := get_all_features (features w) in
    (echo "Enabled features:";; list_each names) w.

(** The lines [list_features] prints for one feature. *)
Definition feature_lines (feature : string) (dependencies : list string)
  : list string :=
  ("- " +:+ feature)
  :: match dependencies with
     | [] => []
     | _ => ["  Dependencies: " +:+ str_join ", " dependencies]
     end.

(** The module-level code of the feature packages under [features/].
    [externals] stands for the imports at the top of
    [features/ai_integration/__init__.py] that leave the repository
    ([config], [httpx], [langchain], [pandas]).  These are the imports of
    modules that are not yet in [sys.modules], the first imports of a
    process: an import that is repeated returns the cached module and
    runs nothing, and the cache is not modelled. *)
Section Packages.
Variable externals : M unit.

Definition no_attrs : PyModule := {| mod_setup := None |}.

Definition lift_registry (f : Dict FeatureInfo → Dict FeatureInfo) : M unit :=
  λ w, (Ok tt, set_features (f (features w)) w).

(** features/file_management/__init__.py 7 *)
Definition import_file_management : M PyModule :=
  lift_registry (register "file_management" None "FileManager");;
  ret no_attrs.

(** features/ai_integration/__init__.py 3-15 *)
Definition import_ai_integration : M PyModule :=
  externals;;
  lift_registry (register "ai_integration" None "AIIntegration");;
  ret no_attrs.

(** features/bulk_generation/__init__.py 3-7 *)
Definition import_bulk_generation : M PyModule :=
  import_ai_integration;; import_file_management;;
  lift_registry (register "bulk_generation"
                   (Some ["ai_integration"; "file_management"]) "BulkGenerator");;
  ret no_attrs.

(** features/code_analysis/__init__.py 2-5 *)
Definition import_code_analysis : M PyModule :=
  lift_registry (register "code_analysis" (Some ["ai_integration"]) "CodeAnalyzer");;
  ret no_attrs.

(** features/dataset_handling/__init__.py 9: the decorator expression
    [FeatureRegistry.register_feature('dataset_handling')] names a
    method the registry class does not have. *)
Definition import_dataset_handling : M PyModule :=
  raise (mk_exc AttributeError
           "type object 'FeatureRegistry' has no attribute 'register_feature'").

Definition feature_packages : Dict (M PyModule) :=
  [("features.ai_integration", import_ai_integration);
   ("features.bulk_generation", import_bulk_generation);
   ("features.code_analysis", import_code_analysis);
   ("features.dataset_handling", import_dataset_handling);
   ("features.file_management", import_file_management)].

Definition repo_import (path : string) : M PyModule :=
  match dict_get feature_packages path with
  | Some run => run
  | None => raise (mk_exc ModuleNotFoundError
                     ("No module named '" +:+ path +:+ "'"))
  end.
End Packages.

End FeatureManager.

(** * [features/file_management/__init__.py] *)

Module FileManagement.
Import Py Run.

Record FileManager := { project_root : string }.

(** [write_file] (16-19):
<<
    os.makedirs(os.path.dirname(file_path), exist_ok=True)
    with open(file_path, 'w') as file:
        file.write(content)
>> *)
Definition write_file (self : FileManager) (file_path content : string) : M unit :=
  lift_fs (Os.makedirs (OsPath.dirname file_path));;
  lift_fs (Os.open_write file_path content).

(** [read_file] (12-14):
<<
      with open(os.path.join(self.project_root, file_path), 'r') as file:
          return file.read()
>> *)
Definition read_file (decode_error : string → string) (self : FileManager)
    (file_path : string) : M string :=
  λ w, (Os.open_read decode_error (OsPath.join (project_root self) file_path) (fs w), w).

End FileManagement.

(** * [features/ai_integration/__init__.py] *)

Module AiIntegration.
Import Py Run Providers.

(** A dataset row as [row_data.to_dict()] shows it. *)
Definition Row : Type := list (string * JValue).

(** The [row] argument of [analyze_row]: an [int], or row data. *)
Inductive RowArg :=
| RowIndex (i : Z)
| RowData (r : Row).

(** The facade; the retrieval store ([vectorstore], [rag_path]) is not
    part of this development. *)
Record AIIntegration := {
  provider : Provider;
  model_name : string;
  dataset : option (list Row)      (* the rows of the DataFrame, or None *)
}.

(** The world after one more call to the provider of [self]. *)
Definition called (self : AIIntegration) (prompt : string) (w : World) : World :=
  set_trace (trace w ++ [EvGenerate (model_name self) prompt]) w.

Section Facade.
(** The service behind a provider: what [provider.generate_code(model,
    prompt)] returns or raises, given the calls made so far. *)
Variable backend : Provider → list Event → string → string → Result string.

(** Python's [repr] of a list or dict. *)
Variable py_repr : JValue → string.

(** [str(v)], as an f-string formats a value. *)
Definition py_str (v : JValue) : string :=
  match v with
  | JStr s => s
  | JNull => "None"
  | JBool true => "True"
  | JBool false => "False"
  | JInt z => pretty z
  | JFloat shown => shown
  | JArr _ | JObj _ => py_repr v
  end.

(** [self.provider.generate_code(self.model_name, prompt)] *)
Definition provider_generate_code (p : Provider) (model prompt : string)
  : M string :=
  λ w, (backend p (trace w) model prompt,
        set_trace (trace w ++ [EvGenerate model prompt]) w).

(** [obj.get(key, dflt)]: only a dict has [get]. *)
Definition py_get (obj : JValue) (key : string) (dflt : JValue) : M JValue :=
  match obj with
  | JObj d => ret (default dflt (dict_get d key))
  | _ => raise (mk_exc AttributeError
                  ("'" +:+ type_name obj +:+ "' object has no attribute 'get'"))
  end.

(** [_parse_error_response] (85-90):
<<
  try:
      error_data = response.json()
      return error_data.get('error', {}).get('message', 'Unknown error occurred')
  except ValueError:
      return f"HTTP {response.status_code}: {response.text}"
>> *)
Definition _parse_error_response (response : Response) : M JValue :=
  match json response with
  | None =>
      ret (JStr ("HTTP " +:+ pretty (status_code response) +:+ ": "
                 +:+ text response))
  | Some error_data =>
      err ← py_get error_data "error" (JObj []);
      py_get err "message" (JStr "Unknown error occurred")
  end.

(** [generate_code] (72-79) *)
Definition generate_code (self : AIIntegration) (prompt : string) : M string :=
  try_except
    (provider_generate_code (provider self) (model_name self) prompt)
    (λ e, match e with
          | Exc_http_status _ response =>
              Some (error_detail ← _parse_error_response response;
                    raise (mk_exc ValueError
                             ("API request failed: " +:+ py_str error_detail)))
          | Exc_plain _ _ =>
              Some (raise (mk_exc ValueError
                             ("Code generation failed: " +:+ exc_str e)))
          end).

(** [explain_code] (81-83) *)
Definition explain_code (self : AIIntegration) (code : string) : M string :=
  generate_code self ("Explain the following code:" +:+ nl +:+ nl +:+ code).

Definition analysis_prompt (row_data : Row) : string :=
  "Analyze the following data:" +:+ nl +:+ nl +:+ py_repr (JObj row_data)
  +:+ nl +:+ nl +:+ "Provide insights and potential next steps.".

(** The call each iteration of [analyze_row] makes. *)
Definition analysis_call (self : AIIntegration) (row_data : Row) : Event :=
  EvGenerate (model_name self) (analysis_prompt row_data).

(** [for _ in range(n): analysis.append(self.generate_code(prompt))] *)
Fixpoint analyze_loop (self : AIIntegration) (row_data : Row) (n : nat)
    (analysis : list string) : M (list string) :=
  match n with
  | O => ret analysis
  | S n' =>
      r ← generate_code self (analysis_prompt row_data);
      analyze_loop self row_data n' (analysis ++ [r])
  end.

(** [analyze_row] (143-159); [range(iterations)] is empty for a
    negative count. *)
Definition analyze_row (self : AIIntegration) (row : RowArg) (iterations : Z)
  : M string :=
  match dataset self with
  | None => raise (mk_exc ValueError "No dataset loaded. Please load a dataset first.")
  | Some rows =>
      row_data ←
        match row with
        | RowIndex i =>
            if (i <? 0) || (i >=? Z.of_nat (length rows))
            then raise (mk_exc ValueError
                          ("Row index " +:+ pretty i +:+ " is out of bounds."))
            else match rows !! Z.to_nat i with      (* self.dataset.iloc[row] *)
                 | Some r => ret r
                 | None => raise (mk_exc IndexError
                                    "single positional indexer is out-of-bounds")
                 end
        | RowData r => ret r
        end;
      analysis ← analyze_loop self row_data (Z.to_nat iterations) [];
      ret (str_join (nl +:+ nl) analysis)
  end.
End Facade.

Section Construction.
(** [config.RAG_STORAGE_PATH] *)
Variable rag_path : string.

(** [HuggingFaceEmbeddings()] and [Chroma(persist_directory=...)], which
    leave the repository: what they do to the world, or raise. *)
Variable open_store : M unit.

(** [_load_rag] (28-31) *)
Definition _load_rag : M unit :=
  λ w, if Os.exists_ rag_path (fs w) then open_store w else (Ok tt, w).

(** [__init__] (17-26); a new facade has no dataset. *)
Definition AIIntegration_init (provider_name : string) (model : option string)
  : M AIIntegration :=
  try_except
    (resolved ← get_provider provider_name;
     _load_rag;;
     mret {| provider := resolved;
             model_name := default (default_model resolved) model;
             dataset := None |})
    (λ e, Some (raise (mk_exc ValueError
                         ("Failed to initialize provider '" +:+ provider_name
                          +:+ "': " +:+ exc_str e)))).
End Construction.

(** What [pd.read_csv] and [pd.read_json] return, as far as the facade
    looks at it: the rows, and the number of columns for [.shape]. *)
Record DataFrame := {
  df_rows : list Row;
  df_columns : nat
}.

Section Datasets.
(** [pd.read_csv] and [pd.read_json]: they return a frame or raise. *)
Variable read_csv read_json : string → M DataFrame.

(** [load_dataset] (130-141); the result is the status message and the
    facade with its new [dataset]. *)
Definition load_dataset (self : AIIntegration) (dataset_path : string)
  : M (string * AIIntegration) :=
  try_except
    (let file_extension := (OsPath.splitext dataset_path).2 in
     frame ←
       (if decide (lower file_extension = ".csv") then read_csv dataset_path
        else if decide (lower file_extension = ".json") then read_json dataset_path
        else raise (mk_exc ValueError
                      ("Unsupported file format: " +:+ file_extension)));
     mret ("Dataset loaded successfully. Shape: ("
           +:+ pretty (length (df_rows frame)) +:+ ", "
           +:+ pretty (df_columns frame) +:+ ")",
           {| provider := provider self; model_name := model_name self;
              dataset := Some (df_rows frame) |}))
    (λ e, Some (raise (mk_exc ValueError
                         ("Failed to load dataset: " +:+ exc_str e)))).
End Datasets.

End AiIntegration.

(** * [features/bulk_generation/__init__.py] *)

Module BulkGeneration.
Import Py Run AiIntegration FileManagement.

Record BulkGenerator := {
  ai : AIIntegration;
  file_manager : FileManager
}.

Section Generator.
Variable backend : Providers.Provider → list Event → string → string → Result string.
Variable py_repr : JValue → string.

Definition content_prompt (file_path : string) (file_description : JValue)
  : string :=
  "Generate the content for the following file:" +:+ nl +:+ nl
  +:+ "File: " +:+ file_path +:+ nl
  +:+ "Description: " +:+ py_str py_repr file_description +:+ nl +:+ nl
  +:+ "Provide only the file content in your response.".

(** [generate_file_content] (23-25) *)
Definition generate_file_content (self : BulkGenerator)
    (file_path : string) (file_description : JValue) : M string :=
  generate_code backend py_repr (ai self)
    (content_prompt file_path file_description).

(** The body of the loop of [create_project] (29-31). *)
Definition create_file (self : BulkGenerator) (output_dir : string)
    (item : string * JValue) : M unit :=
  let '(file_path, file_description) := item in
  content ← generate_file_content self file_path file_description;
  let full_path := OsPath.join output_dir file_path in
  traced (EvWriteFile full_path content)
    (write_file (file_manager self) full_path content).

Fixpoint for_each {A} (items : list A) (body : A → M unit) : M unit :=
  match items with
  | [] => ret tt
  | x :: rest => body x;; for_each rest body
  end.

(** [create_project] (27-31); the plan is the decoded JSON object of
    [generate_project_plan]. *)
Definition create_project (self : BulkGenerator)
    (project_plan : Dict JValue) (output_dir : string) : M unit :=
  match dict_get project_plan "files" with
  | None => raise (mk_exc KeyError "'files'")
  | Some (JObj files) => for_each files (create_file self output_dir)
  | Some other =>
      raise (mk_exc AttributeError
               ("'" +:+ type_name other +:+ "' object has no attribute 'items'"))
  end.

(** [json.loads]: the decoded value, or [None] for a
    [json.JSONDecodeError]. *)
Variable json_loads : string → option JValue.

(** [_parse_json_response] (33-38) *)
Definition _parse_json_response (response : string) : M JValue :=
  match json_loads response with
  | Some value => mret value
  | None => raise (mk_exc ValueError "Failed to parse AI response as JSON")
  end.

Definition requirement_prompt (requirement : string) : string :=
  "Analyze the following project requirement and suggest a suitable technology stack:"
  +:+ nl +:+ nl +:+ requirement +:+ nl +:+ nl
  +:+ "Provide your response in JSON format with 'summary' and 'tech_stack' keys.".

(** [analyze_requirement] (13-16) *)
Definition analyze_requirement (self : BulkGenerator) (requirement : string)
  : M JValue :=
  response ← generate_code backend py_repr (ai self) (requirement_prompt requirement);
  _parse_json_response response.

Definition plan_prompt (requirement : string) (tech_stack : JValue) : string :=
  "Generate a project plan and file structure for the following requirement using the specified technology stack:"
  +:+ nl +:+ nl +:+ "Requirement: " +:+ requirement +:+ nl +:+ nl
  +:+ "Tech Stack: " +:+ py_str py_repr tech_stack +:+ nl +:+ nl
  +:+ "Provide your response in JSON format with 'files' key containing file paths and descriptions.".

(** [generate_project_plan] (18-21) *)
Definition generate_project_plan (self : BulkGenerator) (requirement : string)
    (tech_stack : JValue) : M JValue :=
  response ← generate_code backend py_repr (ai self) (plan_prompt requirement tech_stack);
  _parse_json_response response.

(** The world in which the write of an entry starts: the generation
    call and the write call are logged. *)
Definition before_write (self : BulkGenerator)
    (output_dir file_path content : string) (file_description : JValue)
    (w : World) : World :=
  set_trace (trace w ++ [EvGenerate (model_name (ai self))
                           (content_prompt file_path file_description);
                         EvWriteFile (OsPath.join output_dir file_path) content]) w.

End Generator.

End BulkGeneration.

(** * [interfaces/web/flask_app.py] *)

Module WebApp.
Import Py Run Providers AiIntegration FileManagement BulkGeneration.

(** What a view returns: [jsonify(body), status]. *)
Record Reply := {
  status : Z;
  body : JValue
}.

Definition error_reply (code : Z) (message : string) : Reply :=
  {| status := code; body := JObj [("error", JStr message)] |}.

(** The two [except] clauses every view ends with:
<<
      except ValueError as e:
          return jsonify({"error": str(e)}), 400
      except Exception as e:
          return jsonify({"error": f"An unexpected error occurred: {str(e)}"}), 500
>> *)
Definition on_error (e : Exc) : option (M Reply) :=
  if isinstance e ValueError
  then Some (mret (error_reply 400 (exc_str e)))
  else Some (mret (error_reply 500
                     ("An unexpected error occurred: " +:+ exc_str e))).

Section Views.
Variable backend : Provider → list Event → string → string → Result string.
Variable py_repr : JValue → string.
Variable rag_path : string.
Variable open_store : M unit.
Variable read_csv read_json : string → M DataFrame.
Variable json_loads : string → option JValue.

(** [config.PROJECT_ROOT] *)
Variable PROJECT_ROOT : string.

(** [ai.dataset.sample(1).iloc[0]] on a loaded dataset. *)
Variable sample_row : list Row → M Row.

(** The text of the [TypeError] for [value['key']] on a value that is
    not a dict. *)
Variable subscript_error : JValue → string.

(** The text of the [UnicodeDecodeError] for the bytes of a file. *)
Variable decode_error : string → string.

(** [get_ai_integration] (12-16) *)
Definition get_ai_integration (provider : string) (model : option string)
  : M AIIntegration :=
  try_except
    (AIIntegration_init rag_path open_store provider model)
    (λ e, Some (raise (mk_exc ValueError
                         ("Failed to initialize AI integration: " +:+ exc_str e)))).

(** [generate_code] (22-35); the form fields are the arguments. *)
Definition generate_code_view (prompt provider : string) (model : option string)
  : M Reply :=
  try_except
    (ai ← get_ai_integration provider model;
     code ← generate_code backend py_repr ai prompt;
     mret {| status := 200; body := JObj [("generated_code", JStr code)] |})
    on_error.

(** [analyze_file] (52-69) *)
Definition analyze_file_view (file_path provider : string) (model : option string)
  : M Reply :=
  try_except
    (ai ← get_ai_integration provider model;
     content ← read_file decode_error {| project_root := PROJECT_ROOT |} file_path;
     analysis ← explain_code backend py_repr ai content;
     mret {| status := 200; body := JObj [("analysis", JStr analysis)] |})
    (λ e, if isinstance e FileNotFoundError
          then Some (mret (error_reply 404 ("File not found: " +:+ file_path)))
          else on_error e).

(** [load_dataset] (103-118) *)
Definition load_dataset_view (dataset_path provider : string) (model : option string)
  : M Reply :=
  try_except
    (ai ← get_ai_integration provider model;
     result ← load_dataset read_csv read_json ai dataset_path;
     mret {| status := 200; body := JObj [("message", JStr result.1)] |})
    (λ e, if isinstance e FileNotFoundError
          then Some (mret (error_reply 404 ("Dataset not found: " +:+ dataset_path)))
          else on_error e).

(** [analyze_dataset_row] (120-142); [iterations] and [row_index] are the
    form fields after [int(...)]. *)
Definition analyze_dataset_row_view (iterations : Z) (row_index : option Z)
    (provider : string) (model : option string) : M Reply :=
  try_except
    (ai ← get_ai_integration provider model;
     row ←
       match row_index with
       | Some i => mret (RowIndex i)
       | None =>
           match dataset ai with
           | None => raise (mk_exc AttributeError
                              "'NoneType' object has no attribute 'sample'")
           | Some rows => r ← sample_row rows; mret (RowData r)
           end
       end;
     analysis ← analyze_row backend py_repr ai row iterations;
     mret {| status := 200; body := JObj [("analysis", JStr analysis)] |})
    (λ e, if isinstance e IndexError
          then Some (mret (error_reply 404 "Row index out of range"))
          else on_error e).

(** [value[key]] for a [str] key. *)
Definition getitem (value : JValue) (key : string) : M JValue :=
  match value with
  | JObj d =>
      match dict_get d key with
      | Some item => mret item
      | None => raise (mk_exc KeyError ("'" +:+ key +:+ "'"))
      end
  | _ => raise (mk_exc TypeError (subscript_error value))
  end.

(** [generator.create_project(project_plan, output_dir)] on whatever the
    plan stage decoded: [project_plan['files']] needs a dict. *)
Definition create_project_of (generator : BulkGenerator) (project_plan : JValue)
    (output_dir : string) : M unit :=
  match project_plan with
  | JObj plan => create_project backend py_repr generator plan output_dir
  | _ => raise (mk_exc TypeError (subscript_error project_plan))
  end.

(** [generate_project] (144-168) *)
Definition generate_project_view (requirement output_dir provider : string)
    (model : option string) : M Reply :=
  try_except
    (ai ← get_ai_integration provider model;
     let generator := {| ai := ai;
                         file_manager := {| project_root := PROJECT_ROOT |} |} in
     analysis ← analyze_requirement backend py_repr json_loads generator requirement;
     tech_stack ← getitem analysis "tech_stack";
     project_plan ← generate_project_plan backend py_repr json_loads generator
                      requirement tech_stack;
     create_project_of generator project_plan output_dir;;
     mret {| status := 200;
             body := JObj [("message",
                            JStr ("Project generated successfully in " +:+ output_dir));
                           ("analysis", analysis);
                           ("project_plan", project_plan)] |})
    on_error.
End Views.

End WebApp.

(** * Sample states *)

Module Samples.
Import Py Run.

(** A process with an empty environment, an empty registry, an empty
    file system and no call made yet. *)
Definition bare_world : World :=
  {| environ := ∅; next_id := 0; features := []; stdout := [];
     fs := Os.empty_fs; trace := [] |}.

(** The same process with both credentials exported. *)
Definition keyed_world : World :=
  {| environ := <["GROQ_API_KEY" := "gsk-test"]>
                  (<["OPENROUTER_API_KEY" := "sk-or-test"]> ∅);
     next_id := 0; features := []; stdout := [];
     fs := Os.empty_fs; trace := [] |}.

(** The registry once [features.bulk_generation] and
    [features.code_analysis] are loaded. *)
Definition loaded_features : Dict FeatureInfo :=
  [("ai_integration", {| fi_class := "AIIntegration"; fi_dependencies := [] |});
   ("file_management", {| fi_class := "FileManager"; fi_dependencies := [] |});
   ("bulk_generation",
    {| fi_class := "BulkGenerator";
       fi_dependencies := ["ai_integration"; "file_management"] |});
   ("code_analysis",
    {| fi_class := "CodeAnalyzer"; fi_dependencies := ["ai_integration"] |})].

Definition loaded_world : World := set_features loaded_features bare_world.

(** A provider that answers every prompt with the prompt itself. *)
Definition echo_backend
  : Providers.Provider → list Event → string → string → Result string :=
  λ _ _ _ prompt, Ok prompt.

(** A provider whose first two calls return and whose later calls get no
    response. *)
Definition flaky_backend
  : Providers.Provider → list Event → string → string → Result string :=
  λ _ history _ _,
    match history with
    | [] => Ok "first"
    | [_] => Ok "second"
    | _ => Raise (mk_exc RequestError "All connection attempts failed")
    end.

(** A service that answers every request with the given response of
    non-success status. *)
Definition refusing_backend (response : Response)
  : Providers.Provider → list Event → string → string → Result string :=
  λ _ _ _ _, Raise (Exc_http_status "Server error '500 Internal Server Error'" response).

(** A 500 whose body is the JSON object [{}]. *)
Definition empty_object_500 : Response :=
  {| status_code := 500; text := "{}"; json := Some (JObj []) |}.

(** A 401 with the usual error envelope. *)
Definition invalid_key_401 : Response :=
  {| status_code := 401;
     text := "{" +:+ dq +:+ "error" +:+ dq +:+ ": {" +:+ dq +:+ "message" +:+ dq
             +:+ ": " +:+ dq +:+ "Invalid API Key" +:+ dq +:+ "}}";
     json := Some (JObj [("error", JObj [("message", JStr "Invalid API Key")])]) |}.

(** A 502 whose body is not JSON. *)
Definition bad_gateway_502 : Response :=
  {| status_code := 502; text := "Bad Gateway"; json := None |}.

(** Containers shown by a placeholder. *)
Definition opaque_repr : JValue → string := λ _, "{...}".

Definition two_rows : list AiIntegration.Row :=
  [[("id", JInt 1); ("name", JStr "a")]; [("id", JInt 2); ("name", JStr "b")]].


Definition local_facade : AiIntegration.AIIntegration :=
  {| AiIntegration.provider :=
       {| Providers.obj_id := 0; Providers.cls := Providers.OllamaProvider;
          Providers.api_key := None;
          Providers.base_url := "http://localhost:11434" |};
     AiIntegration.model_name := "Replete-Coder-Qwen-1.5b-Q6_K:latest";
     AiIntegration.dataset := Some two_rows |}.

(** A feature module that registers itself when imported and whose
    [setup()] then fails to import a library. *)
Definition plugin_import : string → M FeatureManager.PyModule :=
  λ _,
    FeatureManager.lift_registry (FeatureRegistry.register "plugin" None "Plugin");;
    mret {| FeatureManager.mod_setup :=
              Some (raise (mk_exc ModuleNotFoundError "No module named 'yaml'")) |}.

Definition local_generator : BulkGeneration.BulkGenerator :=
  {| BulkGeneration.ai := local_facade;
     BulkGeneration.file_manager := {| FileManagement.project_root := "." |} |}.

(** No retrieval store was persisted, or it opens without effect. *)
Definition no_store : M unit := mret tt.

(** A retrieval store that cannot be opened. *)
Definition broken_store : M unit :=
  raise (mk_exc ImportError "Could not import sentence_transformers python package.").

(** A directory [rag_storage] exists in the working directory. *)
Definition rag_world : World :=
  set_fs {| Os.dirs := {[ Os.key "rag_storage" ]}; Os.files := ∅ |} bare_world.

(** A reader that finds no file. *)
Definition missing_file : string → M AiIntegration.DataFrame :=
  λ path, raise (Os.errno2 path).

(** A reader that returns [two_rows] with their two columns. *)
Definition two_rows_reader : string → M AiIntegration.DataFrame :=
  λ _, mret {| AiIntegration.df_rows := two_rows; AiIntegration.df_columns := 2 |}.

(** A decoder that accepts nothing. *)
Definition not_json : string → option JValue := λ _, None.

(** A decoder for which every response is the given value. *)
Definition decodes_to (value : JValue) : string → option JValue := λ _, Some value.

(** Sampling that takes the first row. *)
Definition first_row : list AiIntegration.Row → M AiIntegration.Row :=
  λ rows,
    match rows with
    | r :: _ => mret r
    | [] => raise (mk_exc ValueError
                     "Cannot take a larger sample than population when 'replace=False'")
    end.

(** No reply can be read from the terminal. *)
Definition no_reply : M bool := raise (mk_exc Abort "").

(** The message of the codec for a byte that starts no character. *)
Definition invalid_start_byte : string → string :=
  λ _, "'utf-8' codec can't decode byte 0xff in position 0: invalid start byte".

(** A process in whose project root [/srv/app] the file [logo.png] starts
    with the byte [FF], and [notes.txt] is a regular file. *)
Definition app_world : World :=
  set_fs {| Os.dirs := {[ Os.key "/srv"; Os.key "/srv/app" ]};
            Os.files := <[Os.key "/srv/app/logo.png" := String "255"%char "PNG"]>
                          (<[Os.key "/srv/app/notes.txt" := "to do"]> ∅) |}
    bare_world.

Definition not_subscriptable : JValue → string :=
  λ value, "'" +:+ type_name value +:+ "' object is not subscriptable".

End Samples.

(** * Properties *)

(** Unfolding of the monad operations. *)
Ltac run :=
  repeat (unfold mbind, mret, Run.M_bind, Run.M_ret, Run.bind, Run.ret,
            Run.raise, Run.try_except, Run.traced, Run.lift_fs, Run.echo,
            Run.getenv, Run.new_object in *; cbn beta iota in * ).

(** [x ∉ l] for a closed [x] and a closed list [l]. *)
Ltac not_in_list :=
  vm_compute;
  let H := fresh "H" in
  intros H; repeat (apply elem_of_cons in H as [H|H]; [done|]);
  by apply elem_of_nil in H.

Create HintDb pydict.

(** ** Dictionaries *)

Section DictFacts.
Import Py.
Context {V : Type}.
Implicit Types (d : Dict V) (k : string) (v : V).

Lemma dict_get_None d k : dict_get d k = None ↔ k ∉ dict_keys d.
Proof.
  unfold dict_keys. induction d as [|[k' v'] d IH]; simpl.
  - split; [intros _; apply not_elem_of_nil | done].
  - rewrite not_elem_of_cons. destruct (decide (k' = k)) as [->|Hne].
    + split; [done | intros [? _]; done].
    + rewrite IH. split; [intros ?; split; [congruence | done] | intros [_ ?]; done].
Qed.

Lemma dict_get_Some_elem d k v : dict_get d k = Some v → (k, v) ∈ d.
Proof.
  induction d as [|[k' v'] d IH]; simpl; [done|].
  destruct (decide (k' = k)) as [->|Hne].
  - intros [= ->]. apply list_elem_of_here.
  - intros H. apply list_elem_of_further. auto.
Qed.

Lemma dict_get_elem d k v : dict_wf d → (k, v) ∈ d → dict_get d k = Some v.
Proof.
  unfold dict_wf, dict_keys. induction d as [|[k' v'] d IH]; simpl.
  - intros _ H. by apply elem_of_nil in H.
  - intros Hnd H. apply NoDup_cons in Hnd as [Hk' Hnd].
    apply elem_of_cons in H as [[= -> ->] | H].
    + by rewrite decide_True.
    + destruct (decide (k' = k)) as [->|Hne]; [|by apply IH].
      exfalso. apply Hk'. apply list_elem_of_fmap. by exists (k, v).
Qed.

Lemma dict_contains_get d k :
  dict_contains d k = bool_decide (is_Some (dict_get d k)).
Proof.
  unfold dict_contains. apply bool_decide_ext.
  rewrite <- not_eq_None_Some, dict_get_None.
  split; [by intros ? ? | apply dec_stable].
Qed.

Lemma dict_keys_pop d k :
  dict_keys (dict_pop d k) = filter (λ k', k' ≠ k) (dict_keys d).
Proof.
  unfold dict_keys, dict_pop. induction d as [|[k' v'] d IH]; [done|].
  rewrite fmap_cons. simpl. destruct (decide (k' ≠ k)) as [Hk|Hk].
  - rewrite (filter_cons_True (λ kv : string * V, kv.1 ≠ k)) by done.
    rewrite filter_cons_True by done. simpl. f_equal. exact IH.
  - rewrite (filter_cons_False (λ kv : string * V, kv.1 ≠ k)) by done.
    by rewrite filter_cons_False.
Qed.

Lemma dict_get_pop_ne d k k' : k' ≠ k → dict_get (dict_pop d k) k' = dict_get d k'.
Proof.
  intros Hne. unfold dict_pop. induction d as [|[k0 v0] d IH]; [done|].
  destruct (decide (k0 = k)) as [->|H0].
  - rewrite (filter_cons_False (λ kv : string * V, kv.1 ≠ k)) by (simpl; tauto).
    simpl. rewrite decide_False by done. exact IH.
  - rewrite (filter_cons_True (λ kv : string * V, kv.1 ≠ k)) by done. simpl.
    destruct (decide (k0 = k')); [done | exact IH].
Qed.

Lemma dict_get_pop_eq d k : dict_get (dict_pop d k) k = None.
Proof.
  apply dict_get_None. rewrite dict_keys_pop, list_elem_of_filter. tauto.
Qed.

Lemma dict_pop_absent d k : k ∉ dict_keys d → dict_pop d k = d.
Proof.
  unfold dict_keys, dict_pop. induction d as [|[k' v'] d IH]; [done|].
  rewrite fmap_cons, not_elem_of_cons. simpl. intros [Hne Hd].
  rewrite (filter_cons_True (λ kv : string * V, kv.1 ≠ k)) by (simpl; congruence).
  f_equal. by apply IH.
Qed.

Lemma dict_wf_pop d k : dict_wf d → dict_wf (dict_pop d k).
Proof. unfold dict_wf. rewrite dict_keys_pop. apply NoDup_filter. Qed.

Lemma dict_keys_set d k v :
  dict_keys (dict_set d k v) =
    if bool_decide (k ∈ dict_keys d) then dict_keys d else dict_keys d ++ [k].
Proof.
  unfold dict_keys. induction d as [|[k' v'] d IH]; [done|]. simpl.
  destruct (decide (k' = k)) as [->|Hne]; csimpl.
  - rewrite bool_decide_true; [done | apply list_elem_of_here].
  - rewrite IH. destruct (bool_decide_reflect (k ∈ d.*1)) as [Hin|Hout].
    + rewrite bool_decide_true; [done | by apply list_elem_of_further].
    + rewrite bool_decide_false; [done|].
      rewrite elem_of_cons. intros [?|?]; congruence.
Qed.

Lemma dict_wf_set d k v : dict_wf d → dict_wf (dict_set d k v).
Proof.
  unfold dict_wf. rewrite dict_keys_set. intros Hnd.
  destruct (bool_decide_reflect (k ∈ dict_keys d)); [done|].
  apply NoDup_app. split_and!; [done | | apply NoDup_singleton].
  intros x Hx ->%list_elem_of_singleton. done.
Qed.
End DictFacts.

#[export] Hint Resolve dict_wf_pop dict_wf_set : pydict.

(** ** The provider locator and the provider catalogs *)

Section ProviderFacts.
Import Py Run Providers Samples.

Lemma registered_names :
  dict_keys PROVIDERS = ["groq"; "ollama"; "openrouter"].
Proof. reflexivity. Qed.

Lemma PROVIDERS_lookup name c :
  dict_get PROVIDERS name = Some c →
  (name = "groq" ∧ c = GroqProvider)
  ∨ (name = "ollama" ∧ c = OllamaProvider)
  ∨ (name = "openrouter" ∧ c = OpenRouterProvider).
Proof.
  unfold PROVIDERS. simpl.
  repeat (case_decide; [intros [= <-]; subst; tauto |]). done.
Qed.

Lemma default_model_available (p : Provider) :
  default_model p ∈ available_models p.
Proof.
  unfold default_model, available_models.
  destruct (cls p); rewrite !elem_of_cons; tauto.
Qed.

(** Construction allocates a new object whatever [__init__] does next. *)
Lemma construct_allocates c w :
  (construct c w).2 = set_next_id (S (next_id w)) w.
Proof.
  unfold construct, GroqProvider_init, OllamaProvider_init,
    OpenRouterProvider_init. run.
  destruct c; run; [destruct (falsy _) | |]; reflexivity.
Qed.

Lemma construct_ok_id c w p w' :
  construct c w = (Ok p, w') → obj_id p = next_id w ∧ cls p = c.
Proof.
  unfold construct, GroqProvider_init, OllamaProvider_init,
    OpenRouterProvider_init. run.
  destruct c; run; [destruct (falsy _) | |]; intros [= <- <-]; done.
Qed.

(** [GroqProvider()] fails exactly when the key is unset or empty. *)
Lemma GroqProvider_requires_key w :
  construct GroqProvider w =
    if falsy (environ w !! "GROQ_API_KEY")
    then (Raise (mk_exc ValueError "GROQ_API_KEY environment variable is not set"),
          set_next_id (S (next_id w)) w)
    else (Ok {| obj_id := next_id w; cls := GroqProvider;
                api_key := environ w !! "GROQ_API_KEY";
                base_url := "https://api.groq.com/openai/v1" |},
          set_next_id (S (next_id w)) w).
Proof.
  unfold construct, GroqProvider_init. run. simpl.
  destruct (falsy _); reflexivity.
Qed.

(** [OpenRouterProvider()] has no such check: it always returns an
    instance, holding whatever [os.getenv] gave. *)
Lemma OpenRouterProvider_never_fails w :
  construct OpenRouterProvider w =
    (Ok {| obj_id := next_id w; cls := OpenRouterProvider;
           api_key := environ w !! "OPENROUTER_API_KEY";
           base_url := "https://openrouter.ai/api/v1" |},
     set_next_id (S (next_id w)) w).
Proof. reflexivity. Qed.

Lemma OllamaProvider_never_fails w :
  construct OllamaProvider w =
    (Ok {| obj_id := next_id w; cls := OllamaProvider; api_key := None;
           base_url := "http://localhost:11434" |},
     set_next_id (S (next_id w)) w).
Proof. reflexivity. Qed.

(** C1 (as the code has it).  [get_provider] on a name outside
    [PROVIDERS] raises [ValueError("Unknown provider: <name>")] and
    changes nothing.  On a registered name it either raises the
    missing-credential error of [GroqProvider.__init__] (only for
    ["groq"], when [GROQ_API_KEY] is unset or empty), or returns a newly
    allocated provider: its identity is the one no earlier object has,
    a later resolution gets another one, and its [default_model] is one
    of its [available_models]. *)
Theorem C1_get_provider_resolution (name : string) (w : World) :
  (name ∉ dict_keys PROVIDERS →
     get_provider name w =
       (Raise (mk_exc ValueError ("Unknown provider: " +:+ name)), w))
  ∧ (name ∈ dict_keys PROVIDERS →
     (name = "groq" ∧ falsy (environ w !! "GROQ_API_KEY") = true
      ∧ (get_provider name w).1 =
          Raise (mk_exc ValueError "GROQ_API_KEY environment variable is not set"))
     ∨ (∃ p, get_provider name w = (Ok p, set_next_id (S (next_id w)) w)
           ∧ obj_id p = next_id w
           ∧ (∀ name' p' w', get_provider name' (get_provider name w).2 = (Ok p', w') →
                             obj_id p' ≠ obj_id p)
           ∧ default_model p ∈ available_models p)).
Proof.
  split.
  - intros Hout. unfold get_provider.
    apply dict_get_None in Hout. by rewrite Hout.
  - intros Hin. unfold get_provider.
    destruct (dict_get PROVIDERS name) as [c|] eqn:Hc;
      [| by apply dict_get_None in Hc].
    assert (Hfresh : ∀ p, construct c w = (Ok p, set_next_id (S (next_id w)) w) →
              ∃ p0, construct c w = (Ok p0, set_next_id (S (next_id w)) w)
                ∧ obj_id p0 = next_id w
                ∧ (∀ name' p' w', get_provider name' (construct c w).2 = (Ok p', w') →
                                  obj_id p' ≠ obj_id p0)
                ∧ default_model p0 ∈ available_models p0).
    { intros p Hp. exists p. split; [done|].
      pose proof (construct_ok_id _ _ _ _ Hp) as [Hid _].
      split; [done|]. split; [| apply default_model_available].
      intros name' p' w'. rewrite Hp. simpl. unfold get_provider.
      destruct (dict_get PROVIDERS name'); [| done].
      intros Hp'. apply construct_ok_id in Hp' as [Hid' _].
      rewrite Hid', Hid. simpl. lia. }
    apply PROVIDERS_lookup in Hc as [[-> ->] | [[-> ->] | [-> ->]]].
    + rewrite GroqProvider_requires_key in *.
      destruct (falsy (environ w !! "GROQ_API_KEY")) eqn:Hk.
      * left. done.
      * right. by eapply Hfresh.
    + right. by eapply Hfresh.
    + right. by eapply Hfresh.
Qed.

Lemma C1_get_provider_resolution_witness :
  get_provider "unknown-x" keyed_world =
    (Raise (mk_exc ValueError "Unknown provider: unknown-x"), keyed_world)
  ∧ ∃ p, get_provider "groq" keyed_world = (Ok p, set_next_id 1 keyed_world)
         ∧ default_model p ∈ available_models p.
Proof.
  split.
  - apply (proj1 (C1_get_provider_resolution "unknown-x" keyed_world)).
    not_in_list.
  - destruct (proj2 (C1_get_provider_resolution "groq" keyed_world))
      as [(_ & Hk & _) | (p & Hp & _ & _ & Hd)].
    + apply list_elem_of_here.
    + vm_compute in Hk. discriminate Hk.
    + exists p. split; [exact Hp | exact Hd].
Defined.

(** C1, counterexample to the statement without the credential case:
    ["groq"] is a registered name, and
    in a process without [GROQ_API_KEY] resolving it returns no provider
    but raises the configuration error. *)
Lemma C1_groq_without_key_raises :
  "groq" ∈ dict_keys PROVIDERS
  ∧ get_provider "groq" bare_world =
      (Raise (mk_exc ValueError "GROQ_API_KEY environment variable is not set"),
       set_next_id 1 bare_world).
Proof. split; [apply list_elem_of_here | reflexivity]. Qed.

(** C2, at the failing input: without [OPENROUTER_API_KEY] in the
    environment, [OpenRouterProvider()] raises nothing and returns an
    instance whose [api_key] is [None]; [GroqProvider()] in the same
    process raises. *)
Theorem C2_openrouter_constructs_without_key :
  environ bare_world !! "OPENROUTER_API_KEY" = None
  ∧ get_provider "openrouter" bare_world =
      (Ok {| obj_id := 0; cls := OpenRouterProvider; api_key := None;
             base_url := "https://openrouter.ai/api/v1" |},
       set_next_id 1 bare_world)
  ∧ (construct GroqProvider bare_world).1 =
      Raise (mk_exc ValueError "GROQ_API_KEY environment variable is not set").
Proof. split_and!; reflexivity. Qed.

Lemma configs_catalog (p : Provider) (m : string) :
  m ∈ dict_keys (configs (cls p)) ↔ m ∈ available_models p.
Proof.
  unfold available_models. destruct (cls p); simpl;
    rewrite !elem_of_cons, !elem_of_nil; tauto.
Qed.

(** C7.  [get_model_config] is a total function (it cannot raise); for a
    model outside the provider's catalog it is the empty dict, and for a
    model of the catalog it is that model's entry of [configs], a record
    of exactly [max_tokens] and [temperature]. *)
Theorem C7_get_model_config (p : Provider) (m : string) :
  (m ∉ available_models p → get_model_config p m = [])
  ∧ (m ∈ available_models p →
     ∃ max_tokens temperature,
       get_model_config p m = cfg max_tokens temperature
       ∧ dict_get (configs (cls p)) m = Some (cfg max_tokens temperature)
       ∧ 0 < max_tokens ∧ (0 <= temperature <= 1)%Q).
Proof.
  unfold get_model_config. split.
  - intros Hout. rewrite <- configs_catalog in Hout.
    apply dict_get_None in Hout. by rewrite Hout.
  - unfold available_models. destruct (cls p); intros Hin;
      repeat (apply elem_of_cons in Hin as [-> | Hin];
              [eexists _, _; split_and!; [reflexivity | reflexivity | done | done | done] |]);
      by apply elem_of_nil in Hin.
Qed.

Lemma C7_get_model_config_witness :
  get_model_config (Build_Provider 0 OllamaProvider None "http://localhost:11434")
    "gpt-4" = []
  ∧ ∃ max_tokens temperature,
      get_model_config (Build_Provider 0 GroqProvider (Some "k") "")
        "mixtral-8x7b-32768" = cfg max_tokens temperature
      ∧ max_tokens = 32768.
Proof.
  split.
  - apply (proj1 (C7_get_model_config _ "gpt-4")). not_in_list.
  - destruct (proj2 (C7_get_model_config
                       (Build_Provider 0 GroqProvider (Some "k") "")
                       "mixtral-8x7b-32768"))
      as (mt & t & Hcfg & Hget & _).
    + vm_compute. do 2 apply list_elem_of_further. apply list_elem_of_here.
    + exists mt, t. split; [exact Hcfg|].
      vm_compute in Hget. by injection Hget as <- _.
Defined.
End ProviderFacts.

(** ** The feature registry and its commands *)

Section RegistryFacts.
Import Py Run FeatureRegistry FeatureManager Samples.
Implicit Types (feats : Dict FeatureInfo) (w : World).

Lemma set_features_same w : set_features (features w) w = w.
Proof. by destruct w. Qed.

Lemma register_wf name deps c feats :
  dict_wf feats → dict_wf (register name deps c feats).
Proof. unfold register. auto with pydict. Qed.

Lemma loaded_features_wf : dict_wf loaded_features.
Proof.
  change loaded_features with
    (register "code_analysis" (Some ["ai_integration"]) "CodeAnalyzer"
       (register "bulk_generation" (Some ["ai_integration"; "file_management"])
          "BulkGenerator"
          (register "file_management" None "FileManager"
             (register "ai_integration" None "AIIntegration" [])))).
  repeat apply register_wf. apply NoDup_nil_2.
Qed.

Lemma is_feature_enabled_get feats g :
  is_feature_enabled feats g = true ↔ is_Some (dict_get feats g).
Proof.
  unfold is_feature_enabled. rewrite dict_contains_get.
  apply bool_decide_eq_true.
Qed.

(** C4.  In a registry (a dict: every name registered once), the names
    [get_dependent_features] returns for [f] are exactly the registered
    names whose dependency list contains [f], each once; nothing is
    asked of [f] itself. *)
Theorem C4_get_dependent_features feats (f g : string) :
  dict_wf feats →
  (g ∈ get_dependent_features feats f ↔
     is_feature_enabled feats g = true ∧ f ∈ get_feature_dependencies feats g)
  ∧ NoDup (get_dependent_features feats f).
Proof.
  intros Hwf. unfold get_dependent_features, get_feature_dependencies. split.
  - rewrite is_feature_enabled_get, list_elem_of_fmap. split.
    + intros [[g' info] [-> [Hdep Hin]%list_elem_of_filter]]. simpl in *.
      apply (dict_get_elem _ _ _ Hwf) in Hin. rewrite Hin. eauto.
    + intros [[info Hget] Hdep]. rewrite Hget in Hdep.
      exists (g, info). split; [done|].
      apply list_elem_of_filter. split; [done|]. by apply dict_get_Some_elem.
  - eapply sublist_NoDup; [exact Hwf|].
    apply fmap_sublist, sublist_filter.
Qed.

Lemma C4_get_dependent_features_witness :
  ("code_analysis" ∈ get_dependent_features loaded_features "ai_integration" ↔
     is_feature_enabled loaded_features "code_analysis" = true
     ∧ "ai_integration" ∈ get_feature_dependencies loaded_features "code_analysis")
  ∧ NoDup (get_dependent_features loaded_features "ai_integration").
Proof.
  apply (C4_get_dependent_features loaded_features "ai_integration" "code_analysis").
  apply loaded_features_wf.
Defined.

Lemma dependents_pop feats n f :
  get_dependent_features (dict_pop feats n) f =
    filter (λ m, m ≠ n) (get_dependent_features feats f).
Proof.
  unfold get_dependent_features, dict_pop.
  induction feats as [|[m info] feats IH]; [done|].
  destruct (decide (m = n)) as [->|Hm];
    destruct (decide (f ∈ fi_dependencies info)) as [Hf|Hf].
  - rewrite (filter_cons_False (λ kv : string * FeatureInfo, kv.1 ≠ n))
      by (simpl; tauto).
    rewrite (filter_cons_True (λ item : string * FeatureInfo,
               f ∈ fi_dependencies item.2) (n, info)) by done.
    csimpl. rewrite filter_cons_False by tauto. exact IH.
  - rewrite (filter_cons_False (λ kv : string * FeatureInfo, kv.1 ≠ n))
      by (simpl; tauto).
    rewrite (filter_cons_False (λ item : string * FeatureInfo,
               f ∈ fi_dependencies item.2) (n, info)) by done.
    exact IH.
  - rewrite (filter_cons_True (λ kv : string * FeatureInfo, kv.1 ≠ n)) by done.
    rewrite !(filter_cons_True (λ item : string * FeatureInfo,
                f ∈ fi_dependencies item.2) (m, info)) by done.
    csimpl. rewrite filter_cons_True by done. f_equal. exact IH.
  - rewrite (filter_cons_True (λ kv : string * FeatureInfo, kv.1 ≠ n)) by done.
    rewrite !(filter_cons_False (λ item : string * FeatureInfo,
                f ∈ fi_dependencies item.2) (m, info)) by done.
    exact IH.
Qed.

Lemma echo_each_features deps w :
  (echo_each deps w).1 = Ok tt ∧ features (echo_each deps w).2 = features w.
Proof.
  revert w. induction deps as [|dep deps IH]; intros w; [done|].
  simpl. run. exact (IH (set_stdout (stdout w ++ ["- " +:+ dep]) w)).
Qed.

(** When the command goes through with the removal, the registry it
    leaves is the one of [_features.pop]. *)
Lemma remove_feature_proceeds answer n w :
  get_dependent_features (features w) n = [] ∨ answer = true →
  (remove_feature answer n w).1 = Ok tt
  ∧ features (remove_feature answer n w).2 = dict_pop (features w) n.
Proof.
  intros Hgo. unfold remove_feature.
  destruct (is_feature_enabled (features w) n) eqn:Hen; simpl.
  - destruct (get_dependent_features (features w) n) as [|d ds] eqn:Hdeps.
    + unfold features_pop. run. done.
    + destruct Hgo as [? | ->]; [done|]. run.
      set (w1 := set_stdout _ w).
      destruct (echo_each_features (d :: ds) w1) as [Hok Hf].
      destruct (echo_each (d :: ds) w1) as [[[]|e] w2]; simpl in *; [|done].
      by rewrite Hf.
  - split; [done|]. simpl. symmetry. apply dict_pop_absent.
    apply dict_get_None. apply not_true_iff_false in Hen.
    rewrite is_feature_enabled_get in Hen.
    by apply eq_None_not_Some.
Qed.

(** When features depend on [n] and the operator declines, the command
    stops before the removal. *)
Lemma remove_feature_declined n w :
  get_dependent_features (features w) n ≠ [] →
  features (remove_feature false n w).2 = features w.
Proof.
  intros Hdeps. unfold remove_feature.
  destruct (is_feature_enabled (features w) n); simpl; [|done].
  destruct (get_dependent_features (features w) n) as [|d ds]; [done|].
  run. set (w1 := set_stdout _ w).
  destruct (echo_each_features (d :: ds) w1) as [Hok Hf].
  destruct (echo_each (d :: ds) w1) as [[[]|e] w2]; simpl in *; done.
Qed.

(** C8.  After the removal [FeatureRegistry._features.pop(n, None)] (the
    state in which [remove_feature] ends once it goes through with it):
    [n] is not enabled and not listed; the listing is the former one
    without [n], in the same order; every other name keeps its entry,
    hence its dependency list, even if that list names [n]; the lists
    of dependents only lose [n]; nothing outside the registry changes;
    and for a name that is not registered the state is left as it
    was. *)
Theorem C8_unregister_frame (w : World) (n : string) :
  let w' := (features_pop n w).2 in
  is_feature_enabled (features w') n = false
  ∧ (n ∉ get_all_features (features w'))
  ∧ get_all_features (features w') =
      filter (λ m, m ≠ n) (get_all_features (features w))
  ∧ (∀ m, m ≠ n →
       dict_get (features w') m = dict_get (features w) m
       ∧ is_feature_enabled (features w') m = is_feature_enabled (features w) m
       ∧ get_feature_dependencies (features w') m =
           get_feature_dependencies (features w) m)
  ∧ (∀ f, get_dependent_features (features w') f =
            filter (λ m, m ≠ n) (get_dependent_features (features w) f))
  ∧ w' = set_features (features w') w
  ∧ (is_feature_enabled (features w) n = false → w' = w)
  ∧ (remove_feature true n w).1 = Ok tt
  ∧ features (remove_feature true n w).2 = features w'.
Proof.
  simpl. unfold get_all_features. split_and!.
  - apply not_true_iff_false. rewrite is_feature_enabled_get.
    rewrite dict_get_pop_eq. by intros [? ?].
  - rewrite dict_keys_pop, list_elem_of_filter. tauto.
  - apply dict_keys_pop.
  - intros m Hm. unfold is_feature_enabled, get_feature_dependencies.
    rewrite !dict_contains_get, dict_get_pop_ne by done. done.
  - intros f. apply dependents_pop.
  - done.
  - intros Hen. rewrite dict_pop_absent; [apply set_features_same|].
    apply dict_get_None. apply not_true_iff_false in Hen.
    rewrite is_feature_enabled_get in Hen. by apply eq_None_not_Some.
  - apply remove_feature_proceeds. by right.
  - apply remove_feature_proceeds. by right.
Qed.

Lemma C8_unregister_frame_witness :
  is_feature_enabled loaded_features "nope" = false
  ∧ (features_pop "nope" loaded_world).2 = loaded_world
  ∧ get_feature_dependencies
      (features (features_pop "ai_integration" loaded_world).2) "code_analysis"
    = ["ai_integration"].
Proof.
  split; [reflexivity|]. split.
  - apply (C8_unregister_frame loaded_world "nope"). reflexivity.
  - destruct (C8_unregister_frame loaded_world "ai_integration")
      as (_ & _ & _ & Hother & _).
    destruct (Hother "code_analysis") as (_ & _ & ->); [done | reflexivity].
Defined.

(** C9 (as the code has it).  When loading the feature module raises,
    [add_feature] swallows the exception if it is an [ImportError] (a
    missing module included): the command ends normally after the line
    "Error: Feature '<name>' not found." and leaves the registry as the
    failed import left it.  An exception of any other class is not
    caught: it leaves [add_feature] as it was raised. *)
Theorem C9_add_feature_load_failure
    (import_module : string → M PyModule) (name : string) (w w1 : World) (e : Exc) :
  import_module ("features." +:+ name) w = (Raise e, w1) →
  (isinstance e ImportError = true →
     add_feature import_module name w =
       (Ok tt, set_stdout (stdout w1 ++ ["Error: Feature '" +:+ name +:+ "' not found."]) w1)
     ∧ features (add_feature import_module name w).2 = features w1)
  ∧ (isinstance e ImportError = false →
     add_feature import_module name w = (Raise e, w1)).
Proof.
  intros Himp. unfold add_feature. run. rewrite Himp.
  split; intros ->; done.
Qed.

Lemma C9_add_feature_load_failure_witness :
  add_feature (repo_import (mret tt)) "nope" loaded_world =
    (Ok tt, set_stdout ["Error: Feature 'nope' not found."] loaded_world)
  ∧ features (add_feature (repo_import (mret tt)) "nope" loaded_world).2
    = loaded_features.
Proof.
  apply (C9_add_feature_load_failure (repo_import (mret tt)) "nope"
           loaded_world loaded_world
           (mk_exc ModuleNotFoundError "No module named 'features.nope'")).
  - reflexivity.
  - reflexivity.
Defined.

(** C9, counterexample to "every load failure is swallowed": loading
    [features.dataset_handling] fails with an [AttributeError] (its
    decorator names a registry method that does not exist), and
    [add_feature] lets it out. *)
Lemma C9_dataset_handling_escapes :
  repo_import (mret tt) "features.dataset_handling" bare_world =
    (Raise (mk_exc AttributeError
              "type object 'FeatureRegistry' has no attribute 'register_feature'"),
     bare_world)
  ∧ add_feature (repo_import (mret tt)) "dataset_handling" bare_world =
      (Raise (mk_exc AttributeError
                "type object 'FeatureRegistry' has no attribute 'register_feature'"),
       bare_world).
Proof. split; reflexivity. Qed.

(** A module that loads is registered by its own module-level code. *)
Lemma add_feature_file_management :
  add_feature (repo_import (mret tt)) "file_management" bare_world =
    (Ok tt,
     set_stdout ["Feature 'file_management' added successfully."]
       (set_features
          [("file_management",
            {| fi_class := "FileManager"; fi_dependencies := [] |})]
          bare_world)).
Proof. reflexivity. Qed.
End RegistryFacts.

(** ** The facade: generation calls, error detail, row analysis *)

Section FacadeFacts.
Import Py Run Providers AiIntegration Samples.

Variable backend : Provider → list Event → string → string → Result string.
Variable py_repr : JValue → string.

Implicit Types (self : AIIntegration) (w : World).

Lemma generate_code_returns self prompt w s :
  backend (provider self) (trace w) (model_name self) prompt = Ok s →
  generate_code backend py_repr self prompt w = (Ok s, called self prompt w).
Proof.
  intros Hb. unfold generate_code, provider_generate_code. run. by rewrite Hb.
Qed.

(** Whatever the provider raises, the facade raises: nothing is retried
    and nothing is returned in its place. *)
Lemma generate_code_raises self prompt w e :
  backend (provider self) (trace w) (model_name self) prompt = Raise e →
  ∃ e', generate_code backend py_repr self prompt w = (Raise e', called self prompt w).
Proof.
  intros Hb. unfold generate_code, provider_generate_code. run. rewrite Hb.
  destruct e as [c msg | msg response]; [eauto|].
  unfold _parse_error_response, py_get. run.
  destruct (json response) as [[| | | | | |d]|]; run; eauto.
  destruct (default (JObj []) (dict_get d "error")); run; eauto.
Qed.

Lemma generate_code_plain_failure self prompt w c msg :
  backend (provider self) (trace w) (model_name self) prompt
    = Raise (Exc_plain c msg) →
  generate_code backend py_repr self prompt w =
    (Raise (mk_exc ValueError ("Code generation failed: " +:+ msg)),
     called self prompt w).
Proof.
  intros Hb. unfold generate_code, provider_generate_code. run. by rewrite Hb.
Qed.

(** C6 (as the code has it).  When the provider call raises
    [httpx.HTTPStatusError] for a response, the facade raises a
    [ValueError] whose message is "API request failed: " followed by:
    the value of [error.message] when the body decodes to an object
    holding it; "Unknown error occurred" when the body decodes to an
    object without an [error] entry, or whose [error] object has no
    [message]; and "HTTP <status>: <body>" when the body does not decode
    as JSON. *)
Theorem C6_http_error_detail self (prompt msg : string) (response : Response) w :
  backend (provider self) (trace w) (model_name self) prompt
    = Raise (Exc_http_status msg response) →
  let raised detail :=
    generate_code backend py_repr self prompt w =
      (Raise (mk_exc ValueError ("API request failed: " +:+ detail)),
       called self prompt w) in
  (json response = None →
     raised ("HTTP " +:+ pretty (status_code response) +:+ ": " +:+ text response))
  ∧ (∀ d err v,
       json response = Some (JObj d) → dict_get d "error" = Some (JObj err) →
       dict_get err "message" = Some v →
       raised (py_str py_repr v))
  ∧ (∀ d,
       json response = Some (JObj d) →
       dict_get d "error" = None
       ∨ (∃ err, dict_get d "error" = Some (JObj err) ∧ dict_get err "message" = None) →
       raised "Unknown error occurred").
Proof.
  intros Hb. unfold generate_code, provider_generate_code, _parse_error_response,
    py_get. run. rewrite Hb. split_and!.
  - intros ->. reflexivity.
  - intros d err v -> Herr Hv. run. rewrite Herr. simpl. run. by rewrite Hv.
  - intros d -> [Herr | (err & Herr & Hv)]; run; rewrite Herr; simpl; run;
      [| rewrite Hv]; reflexivity.
Qed.

(** A body that decodes to something other than an object (a list, a
    string, a number) has no [get]: the [AttributeError] is raised inside
    the [except] clause and leaves [generate_code] unwrapped. *)
Lemma generate_code_non_object_body self (prompt msg : string) response w v :
  backend (provider self) (trace w) (model_name self) prompt
    = Raise (Exc_http_status msg response) →
  json response = Some v → (∀ d, v ≠ JObj d) →
  generate_code backend py_repr self prompt w =
    (Raise (mk_exc AttributeError
              ("'" +:+ type_name v +:+ "' object has no attribute 'get'")),
     called self prompt w).
Proof.
  intros Hb Hv Hd. unfold generate_code, provider_generate_code,
    _parse_error_response, py_get. run. rewrite Hb, Hv.
  destruct v; run; try reflexivity. by destruct (Hd entries).
Qed.

(** *** [analyze_row] *)

Lemma called_replicate self row w n :
  called self (analysis_prompt py_repr row)
    (set_trace (trace w ++ replicate n (analysis_call py_repr self row)) w)
  = set_trace (trace w ++ replicate (S n) (analysis_call py_repr self row)) w.
Proof.
  unfold called, set_trace. simpl. f_equal.
  rewrite <- app_assoc. f_equal.
  change [EvGenerate (model_name self) (analysis_prompt py_repr row)]
    with (replicate 1 (analysis_call py_repr self row)).
  rewrite <- replicate_add. by rewrite Nat.add_1_r.
Qed.

(** The loop, started after [n0] calls with [acc] collected: if the next
    calls return [outs], one after the other, the loop makes exactly
    those calls and returns [acc ++ outs]. *)
Lemma analyze_loop_returns self row (outs acc : list string) (n0 : nat) w :
  (∀ j s, outs !! j = Some s →
     backend (provider self) (trace w ++ replicate (n0 + j) (analysis_call py_repr self row))
       (model_name self) (analysis_prompt py_repr row) = Ok s) →
  analyze_loop backend py_repr self row (length outs) acc
    (set_trace (trace w ++ replicate n0 (analysis_call py_repr self row)) w)
  = (Ok (acc ++ outs),
     set_trace (trace w ++ replicate (n0 + length outs) (analysis_call py_repr self row)) w).
Proof.
  revert acc n0. induction outs as [|s outs IH]; intros acc n0 Hcalls; simpl.
  - rewrite app_nil_r, Nat.add_0_r. reflexivity.
  - run. rewrite (generate_code_returns _ _ _ s).
    + rewrite called_replicate. rewrite (IH (acc ++ [s]) (S n0)).
      * by rewrite <- app_assoc, Nat.add_succ_r.
      * intros j s' Hj. by rewrite <- (Hcalls (S j) s' Hj), Nat.add_succ_r.
    + by rewrite <- (Hcalls 0%nat s eq_refl), Nat.add_0_r.
Qed.

(** If the calls return [outs] and the one after them raises, the loop
    raises after that call: no further call, nothing returned. *)
Lemma analyze_loop_raises self row (outs acc : list string) (n0 more : nat) w e :
  (∀ j s, outs !! j = Some s →
     backend (provider self) (trace w ++ replicate (n0 + j) (analysis_call py_repr self row))
       (model_name self) (analysis_prompt py_repr row) = Ok s) →
  backend (provider self)
    (trace w ++ replicate (n0 + length outs) (analysis_call py_repr self row))
    (model_name self) (analysis_prompt py_repr row) = Raise e →
  ∃ e', analyze_loop backend py_repr self row (length outs + S more) acc
          (set_trace (trace w ++ replicate n0 (analysis_call py_repr self row)) w)
        = (Raise e',
           set_trace (trace w ++ replicate (n0 + S (length outs))
                                  (analysis_call py_repr self row)) w).
Proof.
  revert acc n0. induction outs as [|s outs IH]; intros acc n0 Hcalls Hfail; simpl.
  - run. rewrite Nat.add_0_r in Hfail.
    destruct (generate_code_raises self (analysis_prompt py_repr row)
                (set_trace (trace w ++ replicate n0 (analysis_call py_repr self row)) w) e Hfail)
      as [e' He'].
    rewrite He'. exists e'. by rewrite called_replicate, Nat.add_1_r.
  - run. rewrite (generate_code_returns _ _ _ s).
    + rewrite called_replicate.
      destruct (IH (acc ++ [s]) (S n0)) as [e' He'].
      * intros j s' Hj. by rewrite <- (Hcalls (S j) s' Hj), Nat.add_succ_r.
      * rewrite <- Hfail. simpl. by rewrite Nat.add_succ_r.
      * rewrite He'. exists e'. simpl. by rewrite !Nat.add_succ_r.
    + by rewrite <- (Hcalls 0%nat s eq_refl), Nat.add_0_r.
Qed.

Lemma set_trace_same w : set_trace (trace w ++ []) w = w.
Proof. rewrite app_nil_r. by destruct w. Qed.

(** C3.  With a dataset of [n] rows loaded: for an index [i < 0] or
    [i >= n], [analyze_row i k] raises the out-of-bounds [ValueError] and
    the world is untouched (no generation call); for [0 <= i < n], when
    the [k] generation calls return [outs], it makes exactly those [k]
    calls to the provider, each with the analysis prompt of row [i],
    and returns [outs] joined in call order by a blank line. *)
Theorem C3_analyze_row self (rows : list Row) (i : Z) w :
  dataset self = Some rows →
  (i < 0 ∨ i >= Z.of_nat (length rows) →
     ∀ iterations,
       analyze_row backend py_repr self (RowIndex i) iterations w =
         (Raise (mk_exc ValueError
                   ("Row index " +:+ pretty i +:+ " is out of bounds.")), w))
  ∧ (0 <= i < Z.of_nat (length rows) →
     ∃ row, rows !! Z.to_nat i = Some row ∧
       ∀ outs : list string,
         (∀ j s, outs !! j = Some s →
            backend (provider self)
              (trace w ++ replicate j (analysis_call py_repr self row))
              (model_name self) (analysis_prompt py_repr row) = Ok s) →
         analyze_row backend py_repr self (RowIndex i) (Z.of_nat (length outs)) w =
           (Ok (str_join (nl +:+ nl) outs),
            set_trace (trace w ++ replicate (length outs)
                                    (analysis_call py_repr self row)) w)).
Proof.
  intros Hds. unfold analyze_row. rewrite Hds. split.
  - intros Hout iterations.
    assert ((i <? 0) || (i >=? Z.of_nat (length rows)) = true) as ->; [|done].
    apply orb_true_iff. rewrite Z.ltb_lt, Z.geb_le. lia.
  - intros Hin.
    assert ((i <? 0) || (i >=? Z.of_nat (length rows)) = false) as ->.
    { apply orb_false_iff. rewrite Z.ltb_ge. split; [lia|].
      apply not_true_iff_false. rewrite Z.geb_le. lia. }
    destruct (lookup_lt_is_Some_2 rows (Z.to_nat i)) as [row Hrow]; [lia|].
    exists row. split; [done|]. intros outs Hcalls.
    rewrite Hrow. run. rewrite Nat2Z.id.
    pose proof (analyze_loop_returns self row outs [] 0 w Hcalls) as Hloop.
    simpl in Hloop. rewrite set_trace_same in Hloop. by rewrite Hloop.
Qed.

(** A call that raises ends the run: calls that returned before it are
    not reported, and no call follows it. *)
Lemma analyze_row_call_fails self (rows : list Row) (i : Z) row w
    (outs : list string) (more : nat) e :
  dataset self = Some rows → 0 <= i < Z.of_nat (length rows) →
  rows !! Z.to_nat i = Some row →
  (∀ j s, outs !! j = Some s →
     backend (provider self)
       (trace w ++ replicate j (analysis_call py_repr self row))
       (model_name self) (analysis_prompt py_repr row) = Ok s) →
  backend (provider self)
    (trace w ++ replicate (length outs) (analysis_call py_repr self row))
    (model_name self) (analysis_prompt py_repr row) = Raise e →
  ∃ e', analyze_row backend py_repr self (RowIndex i)
          (Z.of_nat (length outs + S more)) w =
        (Raise e',
         set_trace (trace w ++ replicate (S (length outs))
                                 (analysis_call py_repr self row)) w).
Proof.
  intros Hds Hin Hrow Hcalls Hfail. unfold analyze_row. rewrite Hds.
  assert ((i <? 0) || (i >=? Z.of_nat (length rows)) = false) as ->.
  { apply orb_false_iff. rewrite Z.ltb_ge. split; [lia|].
    apply not_true_iff_false. rewrite Z.geb_le. lia. }
  rewrite Hrow. run. rewrite Nat2Z.id.
  destruct (analyze_loop_raises self row outs [] 0 more w e Hcalls Hfail)
    as [e' He'].
  simpl in He'. rewrite set_trace_same in He'. rewrite He'. eauto.
Qed.
End FacadeFacts.

Section FacadeExamples.
Import Py Run Providers AiIntegration Samples.

Lemma C6_http_error_detail_witness :
  generate_code (refusing_backend bad_gateway_502) opaque_repr local_facade "hi"
    bare_world =
    (Raise (mk_exc ValueError "API request failed: HTTP 502: Bad Gateway"),
     called local_facade "hi" bare_world)
  ∧ generate_code (refusing_backend invalid_key_401) opaque_repr local_facade "hi"
      bare_world =
      (Raise (mk_exc ValueError "API request failed: Invalid API Key"),
       called local_facade "hi" bare_world).
Proof.
  split.
  - apply (C6_http_error_detail (refusing_backend bad_gateway_502) opaque_repr
             local_facade "hi" "Server error '500 Internal Server Error'"
             bad_gateway_502 bare_world); reflexivity.
  - destruct (C6_http_error_detail (refusing_backend invalid_key_401) opaque_repr
                local_facade "hi" "Server error '500 Internal Server Error'"
                invalid_key_401 bare_world eq_refl) as (_ & Hmsg & _).
    apply (Hmsg _ _ (JStr "Invalid API Key") eq_refl eq_refl eq_refl).
Defined.

(** C6, counterexample to "otherwise the raw status plus body": the body
    [{}] is JSON without [error.message]; the message raised is the fixed
    text, which holds neither the status nor the body. *)
Lemma C6_json_without_message_hides_body :
  json empty_object_500 = Some (JObj [])
  ∧ generate_code (refusing_backend empty_object_500) opaque_repr local_facade "hi"
      bare_world =
      (Raise (mk_exc ValueError "API request failed: Unknown error occurred"),
       called local_facade "hi" bare_world)
  ∧ str_contains "API request failed: Unknown error occurred" "HTTP 500: {}" = false
  ∧ str_contains "API request failed: Unknown error occurred" "500" = false
  ∧ str_contains "API request failed: Unknown error occurred" "{}" = false.
Proof. split_and!; reflexivity. Qed.

Lemma C3_analyze_row_witness :
  analyze_row echo_backend opaque_repr local_facade (RowIndex 50) 3 bare_world =
    (Raise (mk_exc ValueError "Row index 50 is out of bounds."), bare_world)
  ∧ ∃ row, two_rows !! 1%nat = Some row ∧
      analyze_row echo_backend opaque_repr local_facade (RowIndex 1) 3 bare_world =
        (Ok (str_join (nl +:+ nl)
               (replicate 3 (analysis_prompt opaque_repr row))),
         set_trace (replicate 3 (analysis_call opaque_repr local_facade row))
           bare_world).
Proof.
  split.
  - apply (proj1 (C3_analyze_row echo_backend opaque_repr local_facade two_rows
                    50 bare_world eq_refl)).
    right. simpl. lia.
  - destruct (proj2 (C3_analyze_row echo_backend opaque_repr local_facade two_rows
                       1 bare_world eq_refl)) as (row & Hrow & Hrun).
    + simpl. lia.
    + exists row. split; [exact Hrow|].
      apply (Hrun (replicate 3 (analysis_prompt opaque_repr row))).
      intros j s Hj. apply lookup_replicate in Hj as [-> _]. reflexivity.
Defined.
End FacadeExamples.

(** ** Paths *)

Section PathFacts.
Import OsPath.
Implicit Types (l h t : list ascii) (p : string).

Lemma chars_str l : chars (str l) = l.
Proof. apply list_ascii_of_string_of_list_ascii. Qed.

Lemma str_chars p : str (chars p) = p.
Proof. apply string_of_list_ascii_of_string. Qed.

Lemma str_nil_inv l : str l = "" → l = [].
Proof. by destruct l. Qed.

(** [cut_last_sep] cuts after the last separator. *)
Lemma cut_last_sep_spec l :
  l = (cut_last_sep l).1 ++ (cut_last_sep l).2
  ∧ (sep ∉ (cut_last_sep l).2)
  ∧ ((cut_last_sep l).1 = [] ∨ ∃ h0, (cut_last_sep l).1 = h0 ++ [sep]).
Proof.
  induction l as [|c l (IHl & IHt & IHh)]; simpl.
  - split_and!; [done | apply not_elem_of_nil | by left].
  - destruct (cut_last_sep l) as [[|c' h'] t'] eqn:Hcut; simpl in *.
    + destruct (decide (c = sep)) as [->|Hc]; simpl.
      * split_and!; [by rewrite IHl | done | right; by exists []].
      * split_and!; [by rewrite IHl | | by left].
        rewrite not_elem_of_cons. split; [congruence | done].
    + split_and!; [by rewrite IHl | done |].
      right. destruct IHh as [? | [h0 Hh0]]; [done|].
      exists (c :: h0). simpl. by rewrite Hh0.
Qed.

(** [rstrip_sep] removes a run of separators at the end and nothing
    else. *)
Lemma rstrip_sep_spec l : ∃ n, l = rstrip_sep l ++ replicate n sep.
Proof.
  induction l as [|c l [n IH]]; simpl.
  - by exists 0%nat.
  - destruct (rstrip_sep l) as [|c' r] eqn:Hr; simpl in *.
    + destruct (decide (c = sep)) as [->|Hc].
      * exists (S n). simpl. by rewrite IH.
      * exists n. simpl. by rewrite IH.
    + exists n. by rewrite IH.
Qed.

Lemma not_all_sep_replicate n : not_all_sep (replicate n sep) = false.
Proof.
  unfold not_all_sep. apply negb_false_iff, forallb_forall.
  intros c Hc. apply list_elem_of_In, elem_of_replicate in Hc as [-> _].
  by apply bool_decide_eq_true.
Qed.

Lemma split_sep_nonempty l : split_sep l ≠ [].
Proof.
  destruct l as [|c l]; simpl; [done|].
  destruct (decide (c = sep)); [done|]. by destruct (split_sep l).
Qed.

Lemma split_sep_app_sep l1 l2 :
  split_sep (l1 ++ sep :: l2) = split_sep l1 ++ split_sep l2.
Proof.
  induction l1 as [|c l1 IH]; simpl.
  - done.
  - destruct (decide (c = sep)); [by rewrite IH|].
    rewrite IH. pose proof (split_sep_nonempty l1).
    by destruct (split_sep l1).
Qed.

Lemma split_sep_no_sep t : sep ∉ t → split_sep t = [t].
Proof.
  induction t as [|c t IH]; [done|].
  rewrite not_elem_of_cons. intros [Hc Ht]. simpl.
  rewrite decide_False by congruence. by rewrite IH.
Qed.

Lemma split_sep_replicate n : split_sep (replicate n sep) = replicate (S n) [].
Proof.
  induction n as [|n IH]; [done|]. simpl. by rewrite IH.
Qed.

Lemma components_names p : components p = names (split_sep (chars p)).
Proof. reflexivity. Qed.

Lemma names_app ws1 ws2 : names (ws1 ++ ws2) = names ws1 ++ names ws2.
Proof. unfold names. by rewrite fmap_app, filter_app. Qed.

Lemma names_replicate_nil n : names (replicate n []) = [].
Proof.
  unfold names. rewrite fmap_replicate. induction n as [|n IH]; [done|].
  simpl. rewrite filter_cons_False; [done | simpl; tauto].
Qed.

Lemma names_split_snoc_sep l : names (split_sep (l ++ [sep])) = names (split_sep l).
Proof. by rewrite split_sep_app_sep, names_app, app_nil_r. Qed.

Lemma names_split_runs l n :
  names (split_sep (l ++ replicate n sep)) = names (split_sep l).
Proof.
  destruct n as [|n]; simpl; [by rewrite app_nil_r|].
  by rewrite split_sep_app_sep, split_sep_replicate, names_app,
    names_replicate_nil, app_nil_r.
Qed.

Lemma names_split_rstrip l : names (split_sep (rstrip_sep l)) = names (split_sep l).
Proof.
  destruct (rstrip_sep_spec l) as [n Hn].
  rewrite Hn at 2. by rewrite names_split_runs.
Qed.

(** The characters of [dirname p], in terms of the cut. *)
Lemma dirname_chars p :
  chars (dirname p) =
    let h := (cut_last_sep (chars p)).1 in
    if not_all_sep h then rstrip_sep h else h.
Proof. unfold dirname. by rewrite chars_str. Qed.

(** A path without separator has no directory part, and only such a
    path. *)
Lemma dirname_empty_iff p : dirname p = "" ↔ sep ∉ chars p.
Proof.
  destruct (cut_last_sep_spec (chars p)) as (Hl & Ht & Hh).
  split.
  - intros Hd. apply (f_equal chars) in Hd. rewrite dirname_chars in Hd.
    simpl in Hd. destruct Hh as [Hh | [h0 Hh]].
    + rewrite Hl, Hh. done.
    + exfalso. destruct (not_all_sep (cut_last_sep (chars p)).1) eqn:Hall.
      * change (chars "") with (@nil ascii) in Hd.
        destruct (rstrip_sep_spec (cut_last_sep (chars p)).1) as [n Hn].
        rewrite Hd in Hn. simpl in Hn. rewrite Hn in Hall.
        by rewrite not_all_sep_replicate in Hall.
      * rewrite Hh in Hd. by destruct h0.
  - intros Hno. unfold dirname. destruct Hh as [-> | [h0 Hh]]; [done|].
    exfalso. apply Hno. rewrite Hl, Hh.
    rewrite elem_of_app, elem_of_app, list_elem_of_singleton. tauto.
Qed.

(** The names of a path: those of its directory part, then its last
    component if that is a name. *)
Lemma components_dirname p :
  components p =
    components (dirname p)
    ++ filter (λ s, s ≠ "" ∧ s ≠ ".") [basename p].
Proof.
  rewrite !components_names, dirname_chars. unfold basename. simpl.
  destruct (cut_last_sep_spec (chars p)) as (Hl & Ht & Hh).
  change (filter _ [str ?t]) with (names [t]).
  rewrite <- (split_sep_no_sep _ Ht).
  assert (names (split_sep (if not_all_sep (cut_last_sep (chars p)).1
                            then rstrip_sep (cut_last_sep (chars p)).1
                            else (cut_last_sep (chars p)).1))
          = names (split_sep (cut_last_sep (chars p)).1)) as ->.
  { destruct (not_all_sep _); [apply names_split_rstrip | done]. }
  rewrite Hl at 1. destruct Hh as [-> | [h0 ->]].
  - by rewrite app_nil_l.
  - rewrite <- app_assoc, names_split_snoc_sep.
    change ([sep] ++ ?t) with (sep :: t).
    by rewrite split_sep_app_sep, names_app.
Qed.

Lemma components_file p :
  basename p ≠ "" → basename p ≠ "." →
  components p = components (dirname p) ++ [basename p].
Proof.
  intros H1 H2. rewrite components_dirname at 1.
  by rewrite filter_cons_True, filter_nil.
Qed.
End PathFacts.

(** ** The file manager *)

Section FileFacts.
Import Py Run FileManagement Samples.
Implicit Types (k : Os.Key) (fs : Os.FS).

Lemma elem_of_chain k (K : Os.Key) :
  k ∈ Os.chain K ↔ ∃ n, (1 ≤ n ≤ length K.2)%nat ∧ k = (K.1, take n K.2).
Proof.
  unfold Os.chain. rewrite list_elem_of_fmap. split.
  - intros (n & -> & Hn). apply elem_of_seq in Hn. exists n. split; [lia | done].
  - intros (n & Hn & ->). exists n. split; [done|]. apply elem_of_seq. lia.
Qed.

Lemma chain_self (K : Os.Key) : K.2 ≠ [] → K ∈ Os.chain K.
Proof.
  intros HK. apply elem_of_chain. exists (length K.2). split.
  - destruct K as [a [|c cs]]; simpl in *; [done | lia].
  - rewrite firstn_all. by destruct K.
Qed.

Lemma chain_shorter k (K : Os.Key) : k ∈ Os.chain K → (length k.2 ≤ length K.2)%nat.
Proof.
  intros (n & Hn & ->)%elem_of_chain. simpl. rewrite length_take. lia.
Qed.

Lemma makedirs_creates (name : string) fs :
  name ≠ "" →
  (∀ k, k ∈ Os.chain (Os.key name) → Os.files fs !! k = None) →
  Os.makedirs name fs =
    Ok {| Os.dirs := Os.dirs fs ∪ list_to_set (Os.chain (Os.key name));
          Os.files := Os.files fs |}.
Proof.
  intros Hname Hfree. unfold Os.makedirs. rewrite decide_False by done.
  destruct (filter _ _) as [|k0 ks] eqn:Hf; [done|]. exfalso.
  assert (k0 ∈ filter (λ k, is_Some (Os.files fs !! k)) (Os.chain (Os.key name)))
    as [Hsome Hk]%list_elem_of_filter by (rewrite Hf; apply list_elem_of_here).
  rewrite (Hfree k0 Hk) in Hsome. by destruct Hsome.
Qed.

(** With a directory part in the path and nothing in the way, the
    directories are created and the file is written. *)
Lemma write_file_creates (self : FileManager) (file_path content : string) (w : World) :
  OsPath.dirname file_path ≠ "" →
  (∀ k, k ∈ Os.chain (Os.key (OsPath.dirname file_path)) →
        Os.files (fs w) !! k = None) →
  OsPath.basename file_path ≠ "" → OsPath.basename file_path ≠ "." →
  ".." ∉ OsPath.components file_path →
  Os.isdir (fs w) (Os.key file_path) = false →
  ∃ fs',
    write_file self file_path content w = (Ok tt, set_fs fs' w)
    ∧ Os.dirs fs' =
        Os.dirs (fs w)
        ∪ list_to_set (Os.chain (Os.key (OsPath.dirname file_path)))
    ∧ (∀ k, k ∈ Os.chain (Os.key (OsPath.dirname file_path)) →
            Os.isdir fs' k = true)
    ∧ Os.isdir fs' (Os.key (OsPath.dirname file_path)) = true
    ∧ Os.read fs' file_path = Some content
    ∧ (∀ k, k ≠ Os.key file_path → Os.files fs' !! k = Os.files (fs w) !! k).
Proof.
  intros Hd Hfree Hb1 Hb2 Hup Hnodir.
  set (D := Os.key (OsPath.dirname file_path)) in *.
  set (fs1 := {| Os.dirs := Os.dirs (fs w) ∪ list_to_set (Os.chain D);
                 Os.files := Os.files (fs w) |}).
  assert (Hcomp : (Os.key file_path).2 = D.2 ++ [OsPath.basename file_path]).
  { simpl. by apply components_file. }
  assert (Hlen : length (Os.key file_path).2 = S (length D.2)).
  { rewrite Hcomp, length_app. simpl. lia. }
  assert (Hpath : file_path ≠ "") by (by intros ->).
  assert (Hb3 : OsPath.basename file_path ≠ "..").
  { intros Hb. apply Hup. change (OsPath.components file_path) with (Os.key file_path).2.
    rewrite Hcomp, Hb. apply elem_of_app. right. apply list_elem_of_here. }
  assert (Hdir1 : Os.isdir fs1 (Os.key file_path) = false).
  { unfold Os.isdir in *. apply bool_decide_eq_false.
    apply bool_decide_eq_false in Hnodir.
    intros [Hnil | Hin]; [tauto|]. simpl in Hin.
    apply elem_of_union in Hin as [Hin | Hin]; [tauto|].
    apply elem_of_list_to_set, chain_shorter in Hin. lia. }
  assert (Hne : Os.key file_path ≠ D).
  { intros Heq. rewrite Heq in Hlen. lia. }
  assert (Hparent : Os.isdir fs1 D = true).
  { unfold Os.isdir. apply bool_decide_eq_true.
    destruct (decide (D.2 = [])) as [? | HD]; [by left | right]. simpl.
    apply elem_of_union_r, elem_of_list_to_set. by apply chain_self. }
  exists {| Os.dirs := Os.dirs fs1;
            Os.files := <[Os.key file_path := content]> (Os.files fs1) |}.
  split_and!.
  - unfold write_file. run.
    rewrite (makedirs_creates _ _ Hd Hfree). fold D fs1. simpl.
    unfold Os.open_write. rewrite decide_False by done.
    fold D. rewrite Hdir1, Hparent. simpl.
    rewrite !bool_decide_false by done. reflexivity.
  - reflexivity.
  - intros k Hk. unfold Os.isdir. apply bool_decide_eq_true. right. simpl.
    by apply elem_of_union_r, elem_of_list_to_set.
  - exact Hparent.
  - unfold Os.read. simpl. apply lookup_insert_eq.
  - intros k Hk. simpl. by apply lookup_insert_ne.
Qed.




End FileFacts.

(** ** The bulk generator *)

Section BulkFacts.
Import Py Run Providers AiIntegration FileManagement BulkGeneration Samples.

Variable backend : Provider → list Event → string → string → Result string.
Variable py_repr : JValue → string.

Implicit Types (self : BulkGenerator) (w : World) (items : list (string * JValue)).

Lemma generate_code_ok_inv (facade : AIIntegration) prompt w s w' :
  generate_code backend py_repr facade prompt w = (Ok s, w') →
  backend (provider facade) (trace w) (model_name facade) prompt = Ok s
  ∧ w' = called facade prompt w.
Proof.
  destruct (backend (provider facade) (trace w) (model_name facade) prompt)
    as [s0|e] eqn:Hb.
  - rewrite (generate_code_returns _ _ _ _ _ _ Hb). by intros [= -> <-].
  - destruct (generate_code_raises _ py_repr _ _ _ _ Hb) as [e' ->]. done.
Qed.


Lemma create_file_generated self out path desc w content :
  backend (provider (ai self)) (trace w) (model_name (ai self))
    (content_prompt py_repr path desc) = Ok content →
  create_file backend py_repr self out (path, desc) w =
    write_file (file_manager self) (OsPath.join out path) content
      (before_write py_repr self out path content desc w).
Proof.
  intros Hb. unfold create_file, generate_file_content. run.
  rewrite (generate_code_returns _ _ _ _ _ _ Hb).
  unfold before_write, called, set_trace. simpl. by rewrite <- app_assoc.
Qed.




Lemma create_project_files self plan items out :
  dict_get plan "files" = Some (JObj items) →
  create_project backend py_repr self plan out = for_each items (create_file backend py_repr self out).
Proof. intros Hp. unfold create_project. by rewrite Hp. Qed.


End BulkFacts.

Section MoreExamples.
Import Py Run Providers AiIntegration FileManagement Samples.

(** [posixpath] on sample paths, as CPython answers. *)
Example dirname_samples :
  OsPath.dirname <$> ["a/b/c.txt"; "a"; ""; "/"; "/a"; "a//b"; "a/"; "//a"; "/out/a.py"]
  = ["a/b"; ""; ""; "/"; "/"; "a"; "a"; "//"; "/out"].
Proof. reflexivity. Qed.

Example join_samples :
  (OsPath.join "/out" "a.py", OsPath.join "/out/" "a.py", OsPath.join "" "a.py",
   OsPath.join "/out" "/etc/x")
  = ("/out/a.py", "/out/a.py", "a.py", "/etc/x").
Proof. reflexivity. Qed.

(** Against a provider that echoes its prompt, [explain_code] returns the
    template followed by the snippet. *)
Example explain_code_echo :
  explain_code echo_backend opaque_repr local_facade "def f(): pass" bare_world
  = (Ok ("Explain the following code:" +:+ nl +:+ nl +:+ "def f(): pass"),
     called local_facade
       ("Explain the following code:" +:+ nl +:+ nl +:+ "def f(): pass")
       bare_world).
Proof. reflexivity. Qed.

(** Five iterations against a provider whose third call gets no response:
    three calls are made and the run raises. *)
Example analyze_row_flaky :
  ∃ row, two_rows !! 0%nat = Some row
    ∧ analyze_row flaky_backend opaque_repr local_facade (RowIndex 0) 5 bare_world
      = (Raise (mk_exc ValueError
                  "Code generation failed: All connection attempts failed"),
         set_trace (replicate 3 (analysis_call opaque_repr local_facade row))
           bare_world).
Proof. eexists. split; reflexivity. Qed.

(** The repository's own test writes a bare file name. *)
Example write_file_test_txt :
  write_file {| project_root := "/tmp/t" |} "test.txt" "Hello, World!" bare_world
  = (Raise (mk_exc FileNotFoundError "[Errno 2] No such file or directory: ''"),
     bare_world).
Proof. reflexivity. Qed.

(** A path that ends in a separator has a directory part, which is
    created, and then names no file. *)
Example write_file_trailing_separator :
  (write_file {| project_root := "." |} "out/" "x" bare_world).1
  = Raise (mk_exc IsADirectoryError "[Errno 21] Is a directory: 'out/'").
Proof. reflexivity. Qed.
End MoreExamples.

Section BulkExamples.
Import Py Run Providers AiIntegration FileManagement BulkGeneration Samples.

End BulkExamples.


(** * Further properties *)

(** ** The registry: registration *)

Section RegistrationFacts.
Import Py Run FeatureRegistry FeatureManager Samples.
Implicit Types (feats : Dict FeatureInfo) (w : World).

Lemma dict_get_set_eq {V} (d : Dict V) k v : dict_get (dict_set d k v) k = Some v.
Proof.
  induction d as [|[k' v'] d IH]; simpl.
  - by rewrite decide_True.
  - destruct (decide (k' = k)) as [->|Hne]; simpl.
    + by rewrite decide_True.
    + by rewrite decide_False.
Qed.

Lemma dict_get_set_ne {V} (d : Dict V) k k' v :
  k' ≠ k → dict_get (dict_set d k v) k' = dict_get d k'.
Proof.
  intros Hne. induction d as [|[k0 v0] d IH]; simpl.
  - by rewrite decide_False.
  - destruct (decide (k0 = k)) as [->|H0]; simpl.
    + by rewrite !decide_False.
    + destruct (decide (k0 = k')); [done | exact IH].
Qed.

Lemma dict_pop_set {V} (d : Dict V) k v : dict_pop (dict_set d k v) k = dict_pop d k.
Proof.
  unfold dict_pop. induction d as [|[k' v'] d IH]; cbn [dict_set].
  - by rewrite (filter_cons_False (λ kv : string * V, kv.1 ≠ k)) by (simpl; tauto).
  - destruct (decide (k' = k)) as [->|Hne].
    + by rewrite !(filter_cons_False (λ kv : string * V, kv.1 ≠ k))
        by (simpl; tauto).
    + rewrite !(filter_cons_True (λ kv : string * V, kv.1 ≠ k)) by done.
      f_equal. exact IH.
Qed.

Lemma dict_set_elem {V} (d : Dict V) k v : (k, v) ∈ dict_set d k v.
Proof.
  induction d as [|[k' v'] d IH]; simpl.
  - apply list_elem_of_here.
  - destruct (decide (k' = k)); [apply list_elem_of_here|].
    by apply list_elem_of_further.
Qed.

(** X1.  Registration binds the name: afterwards the feature is enabled,
    [get_feature] gives the class just registered and
    [get_feature_dependencies] the list just declared (empty when none
    was given), whatever the name was bound to before; every other name
    answers as before. *)
Theorem X1_register_then_lookup feats (name : string) (deps : option (list string))
    (feature_class : string) :
  let feats' := register name deps feature_class feats in
  is_feature_enabled feats' name = true
  ∧ get_feature feats' name = Some feature_class
  ∧ get_feature_dependencies feats' name = default [] deps
  ∧ (∀ other, other ≠ name →
       is_feature_enabled feats' other = is_feature_enabled feats other
       ∧ get_feature feats' other = get_feature feats other
       ∧ get_feature_dependencies feats' other = get_feature_dependencies feats other).
Proof.
  simpl. unfold is_feature_enabled, get_feature, get_feature_dependencies, register.
  rewrite !dict_contains_get, !dict_get_set_eq. split_and!; [| done | done |].
  - apply bool_decide_eq_true. eauto.
  - intros other Hne. by rewrite !dict_contains_get, !dict_get_set_ne.
Qed.

(** X2.  Registration keeps the listing in registration order: a name
    that is already registered stays where it is, a new name goes to the
    end, and a listing without repetition stays without repetition. *)
Theorem X2_register_listing feats (name : string) (deps : option (list string))
    (feature_class : string) :
  get_all_features (register name deps feature_class feats) =
    (if is_feature_enabled feats name
     then get_all_features feats
     else get_all_features feats ++ [name])
  ∧ (NoDup (get_all_features feats) →
     NoDup (get_all_features (register name deps feature_class feats))).
Proof.
  unfold get_all_features, register, is_feature_enabled, dict_contains. split.
  - apply dict_keys_set.
  - apply dict_wf_set.
Qed.

Lemma X2_register_listing_witness :
  get_all_features (register "file_management" (Some ["ai_integration"]) "Other"
                      loaded_features)
  = ["ai_integration"; "file_management"; "bulk_generation"; "code_analysis"]
  ∧ NoDup (get_all_features (register "file_management" (Some ["ai_integration"])
                               "Other" loaded_features)).
Proof.
  destruct (X2_register_listing loaded_features "file_management"
              (Some ["ai_integration"]) "Other") as [Hlist Hnodup].
  split; [exact Hlist | apply Hnodup, loaded_features_wf].
Defined.

(** X3.  Removing a name right after registering it leaves the registry
    that the removal alone would leave: the registry as it was when the
    name was not registered before, and otherwise the registry without
    the earlier entry, which is not restored. *)
Theorem X3_register_then_remove (w : World) (name : string)
    (deps : option (list string)) (feature_class : string) :
  let w1 := set_features (register name deps feature_class (features w)) w in
  (features_pop name w1).2 = (features_pop name w).2
  ∧ (is_feature_enabled (features w) name = false → (features_pop name w1).2 = w)
  ∧ get_feature (features (features_pop name w1).2) name = None.
Proof.
  simpl. unfold register. rewrite dict_pop_set. split_and!.
  - done.
  - intros Hen. rewrite dict_pop_absent; [by destruct w|].
    apply dict_get_None. apply not_true_iff_false in Hen.
    rewrite is_feature_enabled_get in Hen. by apply eq_None_not_Some.
  - unfold get_feature. by rewrite dict_get_pop_eq.
Qed.

Lemma X3_register_then_remove_witness :
  (features_pop "dataset_handling"
     (set_features (register "dataset_handling" None "DatasetHandler" loaded_features)
        loaded_world)).2 = loaded_world.
Proof.
  apply (X3_register_then_remove loaded_world "dataset_handling" None "DatasetHandler").
  reflexivity.
Defined.

(** X4.  Registration does not look at the declared dependencies: each
    of them, registered or not (the name itself included), gets the new
    feature among its dependents. *)
Theorem X4_register_unchecked_dependencies feats (name d : string)
    (deps : list string) (feature_class : string) :
  d ∈ deps →
  name ∈ get_dependent_features (register name (Some deps) feature_class feats) d
  ∧ is_feature_enabled (register name (Some deps) feature_class feats) d
    = bool_decide (d = name) || is_feature_enabled feats d.
Proof.
  intros Hd. split.
  - unfold get_dependent_features, register. apply list_elem_of_fmap.
    exists (name, {| fi_class := feature_class; fi_dependencies := deps |}).
    split; [done|]. apply list_elem_of_filter. split; [done | apply dict_set_elem].
  - unfold is_feature_enabled, register. rewrite !dict_contains_get.
    destruct (decide (d = name)) as [->|Hne].
    + rewrite dict_get_set_eq. by rewrite !bool_decide_true by eauto.
    + by rewrite dict_get_set_ne, (bool_decide_false (d = name)) by done.
Qed.

Lemma X4_register_unchecked_dependencies_witness :
  "report" ∈ get_dependent_features
               (register "report" (Some ["charts"; "report"]) "Report" loaded_features)
               "charts"
  ∧ is_feature_enabled
      (register "report" (Some ["charts"; "report"]) "Report" loaded_features)
      "charts" = false.
Proof.
  apply (X4_register_unchecked_dependencies loaded_features "report" "charts"
           ["charts"; "report"] "Report").
  apply list_elem_of_here.
Defined.
End RegistrationFacts.

Section RegistrationExamples.
Import Py Run FeatureRegistry FeatureManager Samples.

Lemma X1_register_then_lookup_witness :
  get_feature (register "file_management" (Some ["ai_integration"]) "DiskManager"
                 loaded_features) "file_management" = Some "DiskManager"
  ∧ get_feature_dependencies
      (register "file_management" (Some ["ai_integration"]) "DiskManager"
         loaded_features) "bulk_generation"
    = ["ai_integration"; "file_management"].
Proof.
  destruct (X1_register_then_lookup loaded_features "file_management"
              (Some ["ai_integration"]) "DiskManager")
    as (_ & Hclass & _ & Hother).
  split; [exact Hclass|].
  destruct (Hother "bulk_generation") as (_ & _ & ->); [done | reflexivity].
Defined.
End RegistrationExamples.

(** ** The feature commands *)

Section CommandFacts.
Import Py Run FeatureRegistry FeatureManager Samples.
Implicit Types (w : World).

Lemma echo_each_run deps w :
  echo_each deps w =
    (Ok tt, set_stdout (stdout w ++ ((λ dep, "- " +:+ dep) <$> deps)) w).
Proof.
  revert w. induction deps as [|dep deps IH]; intros w; simpl.
  - rewrite app_nil_r. by destruct w.
  - run. rewrite IH. simpl. by rewrite <- app_assoc.
Qed.

(** X5.  [remove_feature] raises only what the confirmation prompt
    raises ([click.Abort], when no reply can be read), and apart from
    what the prompt does it touches nothing but the registry and the
    terminal.  For a name that is not enabled it prints the error line and
    removes nothing, without asking; an enabled name without dependents is
    removed without asking.  For an enabled name with dependents it prints
    the warning and one line per dependent in registration order, then
    asks: on a yes the entry is removed and the success line printed, on a
    no nothing more happens, and when the prompt raises the command raises
    the same exception and nothing is removed.  [remove_feature answer]
    is the run in which the prompt returns [answer] at once. *)
Theorem X5_remove_feature_outcome (confirm : M bool) (n : string) (w : World) :
  let dependents := get_dependent_features (features w) n in
  let warning :=
    ("Warning: The following features depend on '" +:+ n +:+ "':")
    :: ((λ dep, "- " +:+ dep) <$> dependents) in
  let removed := "Feature '" +:+ n +:+ "' removed successfully." in
  let asked := set_stdout (stdout w ++ warning) w in
  (is_feature_enabled (features w) n = false →
     remove_feature_prompted confirm n w =
       (Ok tt, set_stdout (stdout w ++ ["Error: Feature '" +:+ n +:+ "' is not enabled."]) w))
  ∧ (is_feature_enabled (features w) n = true → dependents = [] →
     remove_feature_prompted confirm n w =
       (Ok tt, set_stdout (stdout w ++ [removed])
                 (set_features (dict_pop (features w) n) w)))
  ∧ (is_feature_enabled (features w) n = true → dependents ≠ [] →
     ∀ w2,
       (confirm asked = (Ok true, w2) →
          remove_feature_prompted confirm n w =
            (Ok tt, set_stdout (stdout w2 ++ [removed])
                      (set_features (dict_pop (features w2) n) w2)))
       ∧ (confirm asked = (Ok false, w2) →
            remove_feature_prompted confirm n w = (Ok tt, w2))
       ∧ (∀ e, confirm asked = (Raise e, w2) →
            remove_feature_prompted confirm n w = (Raise e, w2)))
  ∧ (∀ answer : bool,
       remove_feature_prompted (mret answer) n w = remove_feature answer n w).
Proof.
  cbv zeta. unfold remove_feature_prompted, remove_feature. split_and!.
  - intros ->. reflexivity.
  - intros -> ->. reflexivity.
  - intros -> Hdeps w2. cbn [negb].
    destruct (get_dependent_features (features w) n) as [|d ds] eqn:Hd; [done|].
    run. rewrite (echo_each_run (d :: ds)).
    assert (Hasked :
      set_stdout
        (stdout (set_stdout
                   (stdout w ++ ["Warning: The following features depend on '"
                                 +:+ n +:+ "':"]) w)
         ++ ((λ dep, "- " +:+ dep) <$> d :: ds))
        (set_stdout
           (stdout w ++ ["Warning: The following features depend on '"
                         +:+ n +:+ "':"]) w)
      = set_stdout
          (stdout w ++
           ("Warning: The following features depend on '" +:+ n +:+ "':")
           :: ((λ dep, "- " +:+ dep) <$> d :: ds)) w).
    { unfold set_stdout. simpl. by rewrite <- !app_assoc. }
    rewrite Hasked.
    split_and!.
    + intros ->. reflexivity.
    + intros ->. reflexivity.
    + intros e ->. reflexivity.
  - intros answer. destruct (negb _); [done|].
    destruct (get_dependent_features (features w) n) as [|d ds]; [done|].
    run. by destruct (echo_each (d :: ds) _) as [[[]|e] w1].
Qed.

Lemma X5_remove_feature_outcome_witness :
  remove_feature_prompted no_reply "file_management" loaded_world =
    (Raise (mk_exc Abort ""),
     set_stdout ["Warning: The following features depend on 'file_management':";
                 "- bulk_generation"] loaded_world)
  ∧ remove_feature_prompted no_reply "nope" loaded_world =
      (Ok tt, set_stdout ["Error: Feature 'nope' is not enabled."] loaded_world).
Proof.
  destruct (X5_remove_feature_outcome no_reply "file_management" loaded_world)
    as (_ & _ & Hasked & _).
  destruct (X5_remove_feature_outcome no_reply "nope" loaded_world) as (Habsent & _).
  split.
  - destruct (Hasked eq_refl ltac:(discriminate)
                (set_stdout ["Warning: The following features depend on 'file_management':";
                             "- bulk_generation"] loaded_world)) as (_ & _ & Habort).
    apply Habort. reflexivity.
  - apply Habsent. reflexivity.
Defined.

Lemma list_each_run (names : list string) w :
  list_each names w =
    (Ok tt,
     set_stdout
       (stdout w ++
        flat_map (λ name, feature_lines name
                            (get_feature_dependencies (features w) name)) names)
       w).
Proof.
  revert w. induction names as [|name names IH]; intros w; cbn [list_each flat_map].
  - rewrite app_nil_r. by destruct w.
  - run. unfold feature_lines.
    destruct (get_feature_dependencies (features w) name) as [|d ds] eqn:Hd;
      run; rewrite IH; simpl; by rewrite <- !app_assoc.
Qed.

(** X6.  [list_features] only prints: the header, then for every
    registered feature in registration order its name and, when it
    declares dependencies, one line with them joined by ", "; the registry
    and the rest of the world are as before. *)
Theorem X6_list_features_output (w : World) :
  list_features w =
    (Ok tt,
     set_stdout
       (stdout w ++
        "Enabled features:"
        :: flat_map (λ name, feature_lines name
                               (get_feature_dependencies (features w) name))
             (get_all_features (features w)))
       w).
Proof.
  unfold list_features. run. rewrite list_each_run. simpl.
  by rewrite <- app_assoc.
Qed.

(** X7.  [add_feature] reports success only when both the import and the
    module's [setup()] return.  An [ImportError] raised by [setup()] is
    reported as "not found" although the module was found, and whatever
    the module registered while it was imported stays registered; any
    other exception raised by [setup()] leaves [add_feature] and nothing
    is printed. *)
Theorem X7_add_feature_setup (import_module : string → M PyModule)
    (name : string) (w w1 : World) (module : PyModule) :
  import_module ("features." +:+ name) w = (Ok module, w1) →
  (mod_setup module = None →
     add_feature import_module name w =
       (Ok tt, set_stdout (stdout w1 ++ ["Feature '" +:+ name +:+ "' added successfully."]) w1))
  ∧ (∀ setup w2, mod_setup module = Some setup →
       (setup w1 = (Ok tt, w2) →
          add_feature import_module name w =
            (Ok tt, set_stdout (stdout w2 ++ ["Feature '" +:+ name +:+ "' added successfully."]) w2))
       ∧ (∀ e, setup w1 = (Raise e, w2) → isinstance e ImportError = true →
            add_feature import_module name w =
              (Ok tt, set_stdout (stdout w2 ++ ["Error: Feature '" +:+ name +:+ "' not found."]) w2)
            ∧ features (add_feature import_module name w).2 = features w2)
       ∧ (∀ e, setup w1 = (Raise e, w2) → isinstance e ImportError = false →
            add_feature import_module name w = (Raise e, w2))).
Proof.
  intros Himp. unfold add_feature. run. rewrite Himp. split.
  - intros ->. reflexivity.
  - intros setup w2 ->. split_and!.
    + intros ->. reflexivity.
    + intros e -> ->. done.
    + intros e -> ->. done.
Qed.
End CommandFacts.

Section CommandExamples.
Import Py Run FeatureRegistry FeatureManager Samples.

Lemma X7_add_feature_setup_witness :
  add_feature plugin_import "plugin" bare_world =
    (Ok tt,
     set_stdout ["Error: Feature 'plugin' not found."]
       (set_features [("plugin", {| fi_class := "Plugin"; fi_dependencies := [] |})]
          bare_world))
  ∧ is_feature_enabled (features (add_feature plugin_import "plugin" bare_world).2)
      "plugin" = true.
Proof.
  destruct (X7_add_feature_setup plugin_import "plugin" bare_world
              (set_features [("plugin", {| fi_class := "Plugin"; fi_dependencies := [] |})]
                 bare_world)
              {| mod_setup := Some (raise (mk_exc ModuleNotFoundError
                                             "No module named 'yaml'")) |}
              eq_refl) as [_ Hsetup].
  destruct (Hsetup _ (set_features
                        [("plugin", {| fi_class := "Plugin"; fi_dependencies := [] |})]
                        bare_world) eq_refl) as (_ & Hfail & _).
  destruct (Hfail (mk_exc ModuleNotFoundError "No module named 'yaml'")
              eq_refl eq_refl) as [Hrun Hfeats].
  split; [exact Hrun|]. rewrite Hfeats. reflexivity.
Defined.
End CommandExamples.

(** ** The file manager: reading back, and failing half-way *)

Section FileRoundTrip.
Import Py Run FileManagement Samples.
Implicit Types (fs : Os.FS) (w : World).

Lemma open_write_ok_inv (path content : string) fs fs' :
  Os.open_write path content fs = Ok fs' →
  path ≠ ""
  ∧ Os.isdir fs (Os.key path) = false
  ∧ Os.key path ≠ Os.key (OsPath.dirname path)
  ∧ OsPath.basename path ≠ ".."
  ∧ fs' = {| Os.dirs := Os.dirs fs;
             Os.files := <[Os.key path := content]> (Os.files fs) |}.
Proof.
  unfold Os.open_write. destruct (decide (path = "")); [done|].
  destruct (Os.isdir fs (Os.key path)) eqn:Hdir; [done|]. simpl.
  destruct (bool_decide_reflect (Os.key path = Os.key (OsPath.dirname path)));
    [done|]. simpl.
  destruct (bool_decide_reflect (OsPath.basename path = "..")); [done|]. simpl.
  destruct (negb _); [done|]. by intros [= <-].
Qed.

Lemma write_file_ok_inv (self : FileManager) (path content : string) w w' :
  write_file self path content w = (Ok tt, w') →
  ∃ fs1, Os.makedirs (OsPath.dirname path) (fs w) = Ok fs1
    ∧ Os.open_write path content fs1 = Ok (fs w')
    ∧ w' = set_fs (fs w') w.
Proof.
  unfold write_file. run.
  destruct (Os.makedirs (OsPath.dirname path) (fs w)) as [fs1|e] eqn:Hmk; [|done].
  simpl. destruct (Os.open_write path content fs1) as [fs2|e] eqn:Hop; [|done].
  intros [= <-]. exists fs1. by destruct w.
Qed.

(** What a successful [write_file] wrote can be read at the same path. *)
Lemma write_file_ok_read (self : FileManager) (path content : string) w w' :
  write_file self path content w = (Ok tt, w') →
  Os.read (fs w') path = Some content.
Proof.
  intros (fs1 & _ & Hop & _)%write_file_ok_inv.
  apply open_write_ok_inv in Hop as (_ & _ & _ & _ & ->).
  unfold Os.read. simpl. apply lookup_insert_eq.
Qed.

Lemma join_same (root path : string) :
  Py.startswith path "/" = true ∨ root = "" → OsPath.join root path = path.
Proof.
  unfold OsPath.join. intros [-> | ->]; [done|].
  by destruct (Py.startswith path "/").
Qed.

Lemma isabs_chars (p : string) :
  OsPath.isabs p =
    match OsPath.chars p with
    | c :: _ => bool_decide (c = OsPath.sep)
    | [] => false
    end.
Proof.
  destruct p as [|c p]; [done|]. unfold OsPath.isabs, Py.startswith.
  change (OsPath.chars (String c p)) with (c :: OsPath.chars p).
  change (String.prefix "/" (String c p))
    with (if ascii_dec "/" c then String.prefix "" p else false).
  destruct (ascii_dec "/" c) as [<-|Hc].
  - rewrite bool_decide_true by done. by destruct p.
  - rewrite bool_decide_false; [done|]. intros ->. by apply Hc.
Qed.

Lemma rstrip_sep_head (c : ascii) (l : list ascii) :
  OsPath.rstrip_sep (c :: l) ≠ [] → ∃ r, OsPath.rstrip_sep (c :: l) = c :: r.
Proof.
  simpl. destruct (OsPath.rstrip_sep l) as [|c' r'].
  - destruct (decide (c = OsPath.sep)); [done | eauto].
  - eauto.
Qed.

(** The directory part of a path is absolute exactly when the path is. *)
Lemma isabs_dirname (p : string) :
  OsPath.dirname p ≠ "" → OsPath.isabs (OsPath.dirname p) = OsPath.isabs p.
Proof.
  intros Hd. rewrite !isabs_chars, dirname_chars. cbv zeta.
  destruct (cut_last_sep_spec (OsPath.chars p)) as (Hl & _ & _).
  assert (Hne : OsPath.chars (OsPath.dirname p) ≠ []).
  { intros Hnil. apply Hd. by rewrite <- (str_chars (OsPath.dirname p)), Hnil. }
  rewrite dirname_chars in Hne. cbv zeta in Hne.
  destruct (OsPath.cut_last_sep (OsPath.chars p)).1 as [|c h] eqn:Hh.
  - by destruct (OsPath.not_all_sep []).
  - rewrite Hl. cbn [app].
    destruct (OsPath.not_all_sep (c :: h)); cbv beta iota in *; [|done].
    destruct (rstrip_sep_head c h Hne) as [r ->]. done.
Qed.

(** A path that ends in a separator or in a dot points where its
    directory part points. *)
Lemma key_of_directory_path (p : string) :
  OsPath.dirname p ≠ "" →
  OsPath.basename p = "" ∨ OsPath.basename p = "." →
  Os.key p = Os.key (OsPath.dirname p).
Proof.
  intros Hd Hb. unfold Os.key. rewrite (isabs_dirname _ Hd). f_equal.
  rewrite components_dirname at 1.
  destruct Hb as [-> | ->];
    rewrite filter_cons_False by (simpl; tauto); by rewrite filter_nil, app_nil_r.
Qed.

Lemma makedirs_ok_inv (name : string) fs fs1 :
  Os.makedirs name fs = Ok fs1 →
  name ≠ ""
  ∧ (∀ k, k ∈ Os.chain (Os.key name) → Os.files fs !! k = None)
  ∧ Os.files fs1 = Os.files fs.
Proof.
  unfold Os.makedirs. destruct (decide (name = "")); [done|].
  destruct (filter _ _) as [|k0 ks] eqn:Hf.
  - intros [= <-]. split_and!; [done | | done].
    intros k Hk. destruct (Os.files fs !! k) as [c|] eqn:Hc; [|done].
    assert (k ∈ filter (λ k, is_Some (Os.files fs !! k)) (Os.chain (Os.key name)))
      as Hin by (apply list_elem_of_filter; split; [by rewrite Hc | done]).
    rewrite Hf in Hin. by apply elem_of_nil in Hin.
  - by destruct (decide (k0 = Os.key name)).
Qed.

Lemma universal_newlines_id (content : string) :
  CR ∉ OsPath.chars content → universal_newlines content = content.
Proof.
  induction content as [|c s IH]; [done|].
  change (OsPath.chars (String c s)) with (c :: OsPath.chars s).
  rewrite not_elem_of_cons. intros [Hc Hs]. cbn [universal_newlines].
  rewrite decide_False by congruence. by rewrite IH.
Qed.

(** X8.  Round trip: [write_file] writes at [file_path] as given, while
    [read_file] reads at [file_path] joined to the project root and in
    text mode.  When the join changes nothing (an absolute [file_path],
    or an empty project root), what [write_file] wrote is what [read_file]
    returns up to the newlines: a carriage return, with the line feed
    after it if there is one, comes back as a line feed; content without
    carriage returns comes back as it was written.  Reading changes
    nothing. *)
Theorem X8_write_then_read (decode_error : string → string) (self : FileManager)
    (file_path content : string) w w' :
  write_file self file_path content w = (Ok tt, w') →
  Py.startswith file_path "/" = true ∨ project_root self = "" →
  ".." ∉ OsPath.components file_path →
  utf8_valid content = true →
  read_file decode_error self file_path w' = (Ok (universal_newlines content), w')
  ∧ (CR ∉ OsPath.chars content →
     read_file decode_error self file_path w' = (Ok content, w')).
Proof.
  intros Hwrite Hjoin _ Hvalid.
  assert (Hread : read_file decode_error self file_path w'
                  = (Ok (universal_newlines content), w')).
  { unfold read_file. rewrite (join_same _ _ Hjoin).
    apply write_file_ok_inv in Hwrite as (fs1 & Hmk & Hop & _).
    apply makedirs_ok_inv in Hmk as (Hd & Hfree & Hfiles).
    apply open_write_ok_inv in Hop as (Hpath & Hdir & Hne & Hup & Hfs).
    assert (Hdir' : Os.isdir (fs w') (Os.key file_path) = false)
      by (rewrite Hfs; exact Hdir).
    assert (Hfile : Os.files (fs w') !! Os.key file_path = Some content)
      by (rewrite Hfs; apply lookup_insert_eq).
    assert (Hcomp : OsPath.components file_path =
                    OsPath.components (OsPath.dirname file_path)
                    ++ [OsPath.basename file_path]).
    { apply components_file; intros Hb; apply Hne, key_of_directory_path; auto. }
    assert (Hanc : filter (λ k, is_Some (Os.files (fs w') !! k))
                     (Os.chain (Os.key (OsPath.dirname file_path))) = []).
    { destruct (filter _ _) as [|k0 ks] eqn:Hf; [done|]. exfalso.
      assert (k0 ∈ filter (λ k, is_Some (Os.files (fs w') !! k))
                     (Os.chain (Os.key (OsPath.dirname file_path))))
        as [Hsome Hk]%list_elem_of_filter by (rewrite Hf; apply list_elem_of_here).
      rewrite Hfs in Hsome. simpl in Hsome.
      destruct (decide (Os.key file_path = k0)) as [<-|Hk0].
      - apply chain_shorter in Hk. simpl in Hk.
        rewrite Hcomp, length_app in Hk. simpl in Hk. lia.
      - rewrite lookup_insert_ne, Hfiles, (Hfree k0 Hk) in Hsome by done.
        by destruct Hsome. }
    unfold Os.open_read. rewrite decide_False by done.
    by rewrite Hdir', Hanc, Hfile, Hvalid. }
  split; [exact Hread|].
  intros Hcr. by rewrite Hread, universal_newlines_id.
Qed.

Lemma X8_write_then_read_witness :
  ∃ w', write_file {| project_root := "/srv/app" |} "/srv/app/notes/a.txt"
          ("one" +:+ String CR (String LF "two")) bare_world = (Ok tt, w')
    ∧ read_file invalid_start_byte {| project_root := "/srv/app" |}
        "/srv/app/notes/a.txt" w'
      = (Ok ("one" +:+ String LF "two"), w').
Proof.
  destruct (write_file_creates {| project_root := "/srv/app" |}
              "/srv/app/notes/a.txt" ("one" +:+ String CR (String LF "two")) bare_world)
    as (fs' & Hrun & _);
    [discriminate | intros k _; apply lookup_empty | discriminate
    | discriminate | not_in_list | reflexivity |].
  exists (set_fs fs' bare_world). split; [exact Hrun|].
  refine (proj1 (X8_write_then_read invalid_start_byte _ _ _ bare_world _
                   Hrun _ _ _)); [by left | not_in_list | reflexivity].
Defined.

(** X9.  [write_file] is not all-or-nothing: for a path, free of [".."],
    with a directory part that ends in a separator, the directories are
    created first and then opening fails with [IsADirectoryError]; the
    directories stay, and no file is written. *)
Theorem X9_write_file_trailing_separator (self : FileManager)
    (file_path content : string) w :
  OsPath.dirname file_path ≠ "" →
  OsPath.basename file_path = "" →
  ".." ∉ OsPath.components file_path →
  (∀ k, k ∈ Os.chain (Os.key (OsPath.dirname file_path)) →
        Os.files (fs w) !! k = None) →
  write_file self file_path content w =
    (Raise (mk_exc IsADirectoryError
              ("[Errno 21] Is a directory: '" +:+ file_path +:+ "'")),
     set_fs {| Os.dirs := Os.dirs (fs w)
                          ∪ list_to_set (Os.chain (Os.key (OsPath.dirname file_path)));
               Os.files := Os.files (fs w) |} w).
Proof.
  intros Hd Hb _ Hfree. unfold write_file. run.
  rewrite (makedirs_creates _ _ Hd Hfree). simpl.
  assert (Hkey : Os.key file_path = Os.key (OsPath.dirname file_path))
    by (apply key_of_directory_path; auto).
  unfold Os.open_write. rewrite decide_False by (by intros ->).
  rewrite (bool_decide_true (Os.key file_path = _)) by done.
  by rewrite orb_true_r.
Qed.

Lemma X9_write_file_trailing_separator_witness :
  ∃ fs',
    write_file {| project_root := "." |} "build/out/" "x" bare_world =
      (Raise (mk_exc IsADirectoryError "[Errno 21] Is a directory: 'build/out/'"),
       set_fs fs' bare_world)
    ∧ Os.isdir fs' (Os.key "build/out") = true
    ∧ Os.files fs' = ∅.
Proof.
  eexists. split.
  - apply (X9_write_file_trailing_separator {| project_root := "." |}
             "build/out/" "x" bare_world);
      [discriminate | reflexivity | not_in_list | intros k _; apply lookup_empty].
  - split; reflexivity.
Defined.
End FileRoundTrip.

(** ** The facade: calls, error classes, construction *)

Section FacadeMore.
Import Py Run Providers AiIntegration Samples.

Variable backend : Provider → list Event → string → string → Result string.
Variable py_repr : JValue → string.

Implicit Types (self : AIIntegration) (w : World).

(** X10.  One [generate_code] is one provider call, whether it returns or
    raises: the call is logged once with the facade's model and the prompt
    as given, and nothing else in the world changes (no retry, no second
    attempt after a failure). *)
Theorem X10_generate_code_single_call self (prompt : string) w :
  (generate_code backend py_repr self prompt w).2 = called self prompt w.
Proof.
  destruct (backend (provider self) (trace w) (model_name self) prompt)
    as [s|e] eqn:Hb.
  - by rewrite (generate_code_returns _ _ _ _ _ _ Hb).
  - by destruct (generate_code_raises _ py_repr _ _ _ _ Hb) as [e' ->].
Qed.

(** X11.  What [generate_code] raises is a [ValueError], with one
    exception: an [AttributeError], and only when the provider failed with
    an HTTP status error whose body decodes as JSON. *)
Theorem X11_generate_code_error_classes self (prompt : string) w (e : Exc) w' :
  generate_code backend py_repr self prompt w = (Raise e, w') →
  (∃ message, e = mk_exc ValueError message)
  ∨ (∃ message msg response value,
       e = mk_exc AttributeError message
       ∧ backend (provider self) (trace w) (model_name self) prompt
         = Raise (Exc_http_status msg response)
       ∧ json response = Some value).
Proof.
  unfold generate_code, provider_generate_code. run.
  destruct (backend (provider self) (trace w) (model_name self) prompt)
    as [s|[c msg|msg response]] eqn:Hb; [done | |].
  - intros [= <- _]. left. eauto.
  - unfold _parse_error_response, py_get. run.
    destruct (json response) as [value|] eqn:Hj; run.
    + destruct value as [| | | | | |d]; run;
        try (intros [= <- _]; right; by eauto 10).
      destruct (default (JObj []) (dict_get d "error")); run;
        intros [= <- _]; (by left; eauto) || (right; by eauto 10).
    + intros [= <- _]. left. eauto.
Qed.

(** X12.  A count of iterations that is zero or negative is not an
    error: with a dataset loaded and a row in range (or row data),
    [analyze_row] makes no call and returns the empty string. *)
Theorem X12_analyze_row_empty_range self (rows : list Row) (iterations : Z) w :
  dataset self = Some rows → iterations <= 0 →
  (∀ r, analyze_row backend py_repr self (RowData r) iterations w = (Ok "", w))
  ∧ (∀ i, 0 <= i < Z.of_nat (length rows) →
          analyze_row backend py_repr self (RowIndex i) iterations w = (Ok "", w)).
Proof.
  intros Hds Hit. unfold analyze_row. rewrite Hds.
  assert (Z.to_nat iterations = 0%nat) as -> by lia. split.
  - intros r. reflexivity.
  - intros i Hin.
    assert ((i <? 0) || (i >=? Z.of_nat (length rows)) = false) as ->.
    { apply orb_false_iff. rewrite Z.ltb_ge. split; [lia|].
      apply not_true_iff_false. rewrite Z.geb_le. lia. }
    destruct (lookup_lt_is_Some_2 rows (Z.to_nat i)) as [row ->]; [lia|].
    reflexivity.
Qed.

(** X13.  Row data passed directly is analysed as it is, in or out of the
    dataset, but a dataset must have been loaded all the same: without
    one, [analyze_row] raises before any call, for every argument. *)
Theorem X13_analyze_row_row_data self (r : Row) w :
  (dataset self = None →
     ∀ row iterations,
       analyze_row backend py_repr self row iterations w =
         (Raise (mk_exc ValueError "No dataset loaded. Please load a dataset first."), w))
  ∧ (∀ rows (outs : list string),
       dataset self = Some rows →
       (∀ j s, outs !! j = Some s →
          backend (provider self)
            (trace w ++ replicate j (analysis_call py_repr self r))
            (model_name self) (analysis_prompt py_repr r) = Ok s) →
       analyze_row backend py_repr self (RowData r) (Z.of_nat (length outs)) w =
         (Ok (str_join (nl +:+ nl) outs),
          set_trace (trace w ++ replicate (length outs) (analysis_call py_repr self r)) w)).
Proof.
  unfold analyze_row. split.
  - intros -> row iterations. reflexivity.
  - intros rows outs -> Hcalls. run. rewrite Nat2Z.id.
    pose proof (analyze_loop_returns backend py_repr self r outs [] 0 w Hcalls) as Hloop.
    simpl in Hloop. rewrite set_trace_same in Hloop. by rewrite Hloop.
Qed.

End FacadeMore.

Section FacadeMoreExamples.
Import Py Run Providers AiIntegration Samples.

Lemma X11_generate_code_error_classes_witness :
  (∃ message, mk_exc ValueError "API request failed: HTTP 502: Bad Gateway"
              = mk_exc ValueError message)
  ∨ (∃ message msg response value,
       mk_exc ValueError "API request failed: HTTP 502: Bad Gateway"
       = mk_exc AttributeError message
       ∧ refusing_backend bad_gateway_502 (provider local_facade) (trace bare_world)
           (model_name local_facade) "hi" = Raise (Exc_http_status msg response)
       ∧ json response = Some value).
Proof.
  apply (X11_generate_code_error_classes (refusing_backend bad_gateway_502)
           opaque_repr local_facade "hi" bare_world _
           (called local_facade "hi" bare_world)).
  reflexivity.
Defined.

Lemma X12_analyze_row_empty_range_witness :
  analyze_row echo_backend opaque_repr local_facade (RowIndex 1) (-3) bare_world
  = (Ok "", bare_world).
Proof.
  apply (X12_analyze_row_empty_range echo_backend opaque_repr local_facade two_rows
           (-3) bare_world eq_refl); simpl; lia.
Defined.

Lemma X13_analyze_row_row_data_witness :
  analyze_row echo_backend opaque_repr local_facade
    (RowData [("id", JInt 99)]) 2 bare_world
  = (Ok (str_join (nl +:+ nl)
           (replicate 2 (analysis_prompt opaque_repr [("id", JInt 99)]))),
     set_trace (replicate 2 (analysis_call opaque_repr local_facade [("id", JInt 99)]))
       bare_world).
Proof.
  destruct (X13_analyze_row_row_data echo_backend opaque_repr local_facade
              [("id", JInt 99)] bare_world) as [_ Hdata].
  apply (Hdata two_rows (replicate 2 (analysis_prompt opaque_repr [("id", JInt 99)]))
           eq_refl).
  intros j s Hj. apply lookup_replicate in Hj as [-> _]. reflexivity.
Defined.
End FacadeMoreExamples.

(** ** The facade: construction and datasets *)

Section ConstructionFacts.
Import Py Run Providers AiIntegration Samples.

Variable rag_path : string.
Variable open_store : M unit.
Variable read_csv read_json : string → M DataFrame.

Implicit Types (w : World).

Lemma get_provider_ok_default name w p w1 :
  get_provider name w = (Ok p, w1) → default_model p ∈ available_models p.
Proof. intros _. apply default_model_available. Qed.

(** X14.  Construction of the facade raises nothing but [ValueError], and
    its message is "Failed to initialize provider '<name>': " followed by
    the text of the cause: the locator's error (an unknown name, a missing
    credential), or the failure to open the retrieval store, which is
    reported under the same words. *)
Theorem X14_init_failure (provider_name : string) (model : option string) w :
  (provider_name ∉ dict_keys PROVIDERS →
     AIIntegration_init rag_path open_store provider_name model w =
       (Raise (mk_exc ValueError
                 ("Failed to initialize provider '" +:+ provider_name
                  +:+ "': Unknown provider: " +:+ provider_name)), w))
  ∧ (∀ e w', AIIntegration_init rag_path open_store provider_name model w = (Raise e, w') →
       ∃ cause,
         e = mk_exc ValueError ("Failed to initialize provider '" +:+ provider_name
                                +:+ "': " +:+ exc_str cause)
         ∧ (get_provider provider_name w = (Raise cause, w')
            ∨ ∃ p w1, get_provider provider_name w = (Ok p, w1)
                      ∧ _load_rag rag_path open_store w1 = (Raise cause, w'))).
Proof.
  unfold AIIntegration_init. run. split.
  - intros Hout. unfold get_provider. apply dict_get_None in Hout. by rewrite Hout.
  - intros e w'. destruct (get_provider provider_name w) as [[p|cause] w1] eqn:Hp.
    + destruct (_load_rag rag_path open_store w1) as [[[]|cause] w2] eqn:Hs; [done|].
      intros [= <- <-]. exists cause. split; [done|]. right. eauto.
    + intros [= <- <-]. exists cause. split; [done|]. by left.
Qed.

(** X15.  A facade that is constructed holds the provider the locator
    resolved and no dataset; its model is the provider's default, which the
    provider lists, when none was given, and otherwise the name given,
    taken as it is (it is not checked against the provider's catalog). *)
Theorem X15_init_success (provider_name : string) (model : option string) w ai w' :
  AIIntegration_init rag_path open_store provider_name model w = (Ok ai, w') →
  dataset ai = None
  ∧ (∃ w1, get_provider provider_name w = (Ok (provider ai), w1))
  ∧ (model = None →
       model_name ai = default_model (provider ai)
       ∧ model_name ai ∈ available_models (provider ai))
  ∧ (∀ m, model = Some m → model_name ai = m).
Proof.
  unfold AIIntegration_init. run.
  destruct (get_provider provider_name w) as [[p|cause] w1] eqn:Hp; [|done].
  destruct (_load_rag rag_path open_store w1) as [[[]|cause] w2] eqn:Hs; [|done].
  intros [= <- <-]. simpl. split_and!; [done | eauto | |].
  - intros ->. split; [done | apply default_model_available].
  - by intros m ->.
Qed.

(** X16.  A path whose extension, lower-cased, is neither [.csv] nor
    [.json] is refused before anything is read: [load_dataset] raises the
    [ValueError] "Failed to load dataset: Unsupported file format: <ext>",
    with the extension as written, and the world is as before. *)
Theorem X16_load_dataset_unsupported (self : AIIntegration) (dataset_path : string) w :
  lower (OsPath.splitext dataset_path).2 ≠ ".csv" →
  lower (OsPath.splitext dataset_path).2 ≠ ".json" →
  load_dataset read_csv read_json self dataset_path w =
    (Raise (mk_exc ValueError
              ("Failed to load dataset: Unsupported file format: "
               +:+ (OsPath.splitext dataset_path).2)), w).
Proof.
  intros Hcsv Hjson. unfold load_dataset. run.
  by rewrite !decide_False.
Qed.

(** X17.  The outcomes of [load_dataset]: whatever goes wrong, a reader
    that raises (a missing file included), it raises a [ValueError] whose
    message starts with "Failed to load dataset: "; when it returns, a
    reader returned a frame, the message shows that frame's shape, and the
    facade returned holds the frame's rows with the provider and model of
    before. *)
Theorem X17_load_dataset_outcomes (self : AIIntegration) (dataset_path : string) w :
  (∀ e w', load_dataset read_csv read_json self dataset_path w = (Raise e, w') →
     ∃ detail, e = mk_exc ValueError ("Failed to load dataset: " +:+ detail))
  ∧ (∀ message ai w',
       load_dataset read_csv read_json self dataset_path w = (Ok (message, ai), w') →
       ∃ frame,
         (read_csv dataset_path w = (Ok frame, w') ∨ read_json dataset_path w = (Ok frame, w'))
         ∧ message = "Dataset loaded successfully. Shape: ("
                     +:+ pretty (length (df_rows frame)) +:+ ", "
                     +:+ pretty (df_columns frame) +:+ ")"
         ∧ dataset ai = Some (df_rows frame)
         ∧ provider ai = provider self ∧ model_name ai = model_name self).
Proof.
  unfold load_dataset. run. split.
  - intros e w'.
    destruct (decide (lower (OsPath.splitext dataset_path).2 = ".csv"));
      [| destruct (decide (lower (OsPath.splitext dataset_path).2 = ".json"))].
    + destruct (read_csv dataset_path w) as [[frame|cause] w1]; [done|].
      intros [= <- _]. eauto.
    + destruct (read_json dataset_path w) as [[frame|cause] w1]; [done|].
      intros [= <- _]. eauto.
    + intros [= <- _]. eauto.
  - intros message ai w'.
    destruct (decide (lower (OsPath.splitext dataset_path).2 = ".csv"));
      [| destruct (decide (lower (OsPath.splitext dataset_path).2 = ".json"))].
    + destruct (read_csv dataset_path w) as [[frame|cause] w1] eqn:Hr; [|done].
      intros [= <- <- <-]. exists frame. split_and!; eauto.
    + destruct (read_json dataset_path w) as [[frame|cause] w1] eqn:Hr; [|done].
      intros [= <- <- <-]. exists frame. split_and!; eauto.
    + done.
Qed.
End ConstructionFacts.

Section ConstructionExamples.
Import Py Run Providers AiIntegration Samples.

Lemma X15_init_success_witness :
  ∃ ai w',
    AIIntegration_init "rag_storage" no_store "ollama" (Some "no-such-model") bare_world
      = (Ok ai, w')
    ∧ model_name ai = "no-such-model"
    ∧ "no-such-model" ∉ available_models (provider ai).
Proof.
  eexists _, _. split; [reflexivity|].
  split.
  - by apply (X15_init_success "rag_storage" no_store "ollama" (Some "no-such-model")
                bare_world _ _ eq_refl).
  - not_in_list.
Defined.

Lemma X16_load_dataset_unsupported_witness :
  load_dataset two_rows_reader two_rows_reader local_facade "data/.csv" bare_world =
    (Raise (mk_exc ValueError "Failed to load dataset: Unsupported file format: "),
     bare_world).
Proof.
  apply (X16_load_dataset_unsupported two_rows_reader two_rows_reader local_facade
           "data/.csv" bare_world); by vm_compute.
Defined.
End ConstructionExamples.

(** ** The bulk generator: what a run leaves behind *)

Section BulkMore.
Import Py Run Providers AiIntegration FileManagement BulkGeneration Samples.

Variable backend : Provider → list Event → string → string → Result string.
Variable py_repr : JValue → string.

Implicit Types (self : BulkGenerator) (w : World) (items : list (string * JValue)).

Lemma grows_refl fs0 : Os.grows fs0 fs0.
Proof. by split. Qed.

Lemma grows_trans fs0 fs1 fs2 :
  Os.grows fs0 fs1 → Os.grows fs1 fs2 → Os.grows fs0 fs2.
Proof.
  intros [Hd1 Hf1] [Hd2 Hf2]. split; [set_solver | auto].
Qed.

Lemma makedirs_grows name fs0 fs1 :
  Os.makedirs name fs0 = Ok fs1 → Os.grows fs0 fs1.
Proof.
  unfold Os.makedirs. destruct (decide (name = "")); [done|].
  destruct (filter _ _) as [|k ks].
  - intros [= <-]. split; simpl; [set_solver | auto].
  - by destruct (decide (k = Os.key name)).
Qed.

Lemma open_write_grows path content fs0 fs1 :
  Os.open_write path content fs0 = Ok fs1 → Os.grows fs0 fs1.
Proof.
  intros (_ & _ & _ & _ & ->)%open_write_ok_inv. split; simpl; [done|].
  intros k Hk. destruct (decide (Os.key path = k)) as [<-|Hne].
  - rewrite lookup_insert_eq. eauto.
  - by rewrite lookup_insert_ne.
Qed.

Lemma write_file_grows (fm : FileManager) path content w :
  Os.grows (fs w) (fs (write_file fm path content w).2).
Proof.
  unfold write_file. run.
  destruct (Os.makedirs (OsPath.dirname path) (fs w)) as [fs1|e] eqn:Hmk; simpl;
    [|apply grows_refl].
  apply makedirs_grows in Hmk.
  destruct (Os.open_write path content fs1) as [fs2|e] eqn:Hop; simpl; [|done].
  apply open_write_grows in Hop. by eapply grows_trans.
Qed.

Lemma generate_code_fs (facade : AIIntegration) prompt w :
  fs (generate_code backend py_repr facade prompt w).2 = fs w.
Proof.
  destruct (backend (provider facade) (trace w) (model_name facade) prompt)
    as [s|e] eqn:Hb.
  - by rewrite (generate_code_returns _ _ _ _ _ _ Hb).
  - by destruct (generate_code_raises _ py_repr _ _ _ _ Hb) as [e' ->].
Qed.

Lemma create_file_grows self out item w :
  Os.grows (fs w) (fs (create_file backend py_repr self out item w).2).
Proof.
  destruct item as [path desc]. unfold create_file, generate_file_content. run.
  pose proof (generate_code_fs (ai self) (content_prompt py_repr path desc) w) as Hfs.
  destruct (generate_code backend py_repr (ai self) (content_prompt py_repr path desc) w)
    as [[content|e] w1]; simpl in *.
  - rewrite <- Hfs.
    apply (write_file_grows (file_manager self) (OsPath.join out path) content
             (set_trace (trace w1 ++ [EvWriteFile (OsPath.join out path) content]) w1)).
  - rewrite Hfs. apply grows_refl.
Qed.

Lemma for_each_create_file_grows self out items w :
  Os.grows (fs w) (fs (for_each items (create_file backend py_repr self out) w).2).
Proof.
  revert w. induction items as [|item items IH]; intros w; cbn [for_each].
  - apply grows_refl.
  - run. pose proof (create_file_grows self out item w) as Hstep.
    destruct (create_file backend py_repr self out item w) as [[[]|e] w1];
      simpl in *; [|done].
    eapply grows_trans; [exact Hstep | apply IH].
Qed.

(** X18.  Whatever the plan and however the run ends, [create_project]
    removes nothing: every directory of before is a directory after, and
    every file of before is still a file.  A run that fails at some entry
    undoes none of the entries written before it. *)
Theorem X18_create_project_keeps_files self (plan : Dict JValue) (out : string) w :
  Os.grows (fs w) (fs (create_project backend py_repr self plan out w).2).
Proof.
  unfold create_project.
  destruct (dict_get plan "files") as [[| | | | | |items]|];
    try apply grows_refl.
  apply for_each_create_file_grows.
Qed.

Lemma isabs_dirname_nonempty (path : string) :
  OsPath.isabs path = true → OsPath.dirname path ≠ "".
Proof.
  intros Habs Hd. apply dirname_empty_iff in Hd. apply Hd.
  rewrite isabs_chars in Habs.
  destruct (OsPath.chars path) as [|c l]; [done|].
  apply bool_decide_eq_true in Habs as ->. apply list_elem_of_here.
Qed.

(** X19.  An entry of the plan whose path is absolute is written at that
    path, whatever the output directory: [os.path.join(output_dir, path)]
    is [path] itself.  When the provider returns [content] for the entry
    and the operating system accepts the write, the file at [path] holds
    [content]. *)
Theorem X19_absolute_entry_ignores_output_dir self (plan : Dict JValue)
    (out path : string) (desc : JValue) (content : string) w :
  dict_get plan "files" = Some (JObj [(path, desc)]) →
  OsPath.isabs path = true →
  backend (provider (ai self)) (trace w) (model_name (ai self))
    (content_prompt py_repr path desc) = Ok content →
  (∀ k, k ∈ Os.chain (Os.key (OsPath.dirname path)) → Os.files (fs w) !! k = None) →
  OsPath.basename path ≠ "" → OsPath.basename path ≠ "." →
  ".." ∉ OsPath.components path →
  Os.isdir (fs w) (Os.key path) = false →
  ∃ w',
    create_project backend py_repr self plan out w = (Ok tt, w')
    ∧ Os.read (fs w') path = Some content
    ∧ trace w' = trace w ++ [EvGenerate (model_name (ai self))
                               (content_prompt py_repr path desc);
                             EvWriteFile path content].
Proof.
  intros Hplan Habs Hb Hfree Hb1 Hb2 Hup Hnodir.
  rewrite (create_project_files _ _ _ _ _ _ Hplan). cbn [for_each]. run.
  rewrite (create_file_generated _ _ _ _ _ _ _ _ Hb).
  unfold before_write. rewrite (join_same out path) by (by left).
  destruct (write_file_creates (file_manager self) path content
              (set_trace (trace w ++ [EvGenerate (model_name (ai self))
                                        (content_prompt py_repr path desc);
                                      EvWriteFile path content]) w))
    as (fs' & Hrun & _ & _ & _ & Hread & _); try done.
  { by apply isabs_dirname_nonempty. }
  rewrite Hrun. eexists. split_and!; [done | exact Hread | done].
Qed.
End BulkMore.

Section BulkMoreExamples.
Import Py Run Providers AiIntegration FileManagement BulkGeneration Samples.

Lemma X19_absolute_entry_ignores_output_dir_witness :
  ∃ w',
    create_project echo_backend opaque_repr local_generator
      [("files", JObj [("/etc/motd", JStr "greeting")])] "generated" bare_world
      = (Ok tt, w')
    ∧ Os.read (fs w') "/etc/motd"
      = Some (content_prompt opaque_repr "/etc/motd" (JStr "greeting"))
    ∧ trace w' =
        trace bare_world
        ++ [EvGenerate (model_name (ai local_generator))
              (content_prompt opaque_repr "/etc/motd" (JStr "greeting"));
            EvWriteFile "/etc/motd"
              (content_prompt opaque_repr "/etc/motd" (JStr "greeting"))].
Proof.
  apply (X19_absolute_entry_ignores_output_dir echo_backend opaque_repr local_generator
           [("files", JObj [("/etc/motd", JStr "greeting")])] "generated" "/etc/motd"
           (JStr "greeting") (content_prompt opaque_repr "/etc/motd" (JStr "greeting"))
           bare_world);
    [reflexivity | reflexivity | reflexivity | intros k _; apply lookup_empty
    | discriminate | discriminate | not_in_list | reflexivity].
Defined.
End BulkMoreExamples.

(** ** The web views *)

Section WebFacts.
Import Py Run Providers AiIntegration FileManagement BulkGeneration WebApp Samples.

Variable backend : Provider → list Event → string → string → Result string.
Variable py_repr : JValue → string.
Variable rag_path : string.
Variable open_store : M unit.
Variable read_csv read_json : string → M DataFrame.
Variable json_loads : string → option JValue.
Variable PROJECT_ROOT : string.
Variable sample_row : list Row → M Row.
Variable subscript_error : JValue → string.
Variable decode_error : string → string.

Implicit Types (w : World) (model : option string).

Lemma get_ai_integration_run provider_name model w :
  get_ai_integration rag_path open_store provider_name model w =
    match AIIntegration_init rag_path open_store provider_name model w with
    | (Ok facade, w1) => (Ok facade, w1)
    | (Raise e, w1) =>
        (Raise (mk_exc ValueError
                  ("Failed to initialize AI integration: " +:+ exc_str e)), w1)
    end.
Proof.
  unfold get_ai_integration. run.
  by destruct (AIIntegration_init rag_path open_store provider_name model w) as [[?|?] ?].
Qed.

Lemma init_no_dataset provider_name model w facade w1 :
  AIIntegration_init rag_path open_store provider_name model w = (Ok facade, w1) →
  dataset facade = None.
Proof.
  unfold AIIntegration_init. run.
  destruct (get_provider provider_name w) as [[p|cause] w0]; [|done].
  destruct (_load_rag rag_path open_store w0) as [[[]|cause] w2]; [|done].
  by intros [= <- _].
Qed.

(** What [generate_code] raises is caught as a [ValueError], unless the
    provider failed with an HTTP status error whose body decodes as
    JSON. *)
Lemma generate_code_raises_class (facade : AIIntegration) prompt w e w' :
  generate_code backend py_repr facade prompt w = (Raise e, w') →
  isinstance e ValueError = true
  ∨ (isinstance e ValueError = false
     ∧ ∃ msg response value,
         backend (provider facade) (trace w) (model_name facade) prompt
           = Raise (Exc_http_status msg response)
         ∧ json response = Some value).
Proof.
  unfold generate_code, provider_generate_code. run.
  destruct (backend (provider facade) (trace w) (model_name facade) prompt)
    as [s|[c msg|msg response]] eqn:Hb; [done | |].
  - intros [= <- _]. by left.
  - unfold _parse_error_response, py_get. run.
    destruct (json response) as [value|] eqn:Hj; run.
    + destruct value as [| | | | | |d]; run;
        try (intros [= <- _]; right; split; [done | by eauto]).
      destruct (default (JObj []) (dict_get d "error")); run;
        intros [= <- _]; (by left) || (right; split; [done | by eauto]).
    + intros [= <- _]. by left.
Qed.

(** X20.  [analyze_dataset_row] cannot succeed: the facade it analyses
    with is constructed by the request itself and so has no dataset.  With
    a row index the answer is the 400 of [analyze_row]; without one, the
    sampling of the missing dataset fails and the answer is a 500; a
    facade that cannot be constructed gives a 400.  The provider is never
    called, and the 404 of the view is out of reach. *)
Theorem X20_analyze_dataset_row_never_succeeds (iterations : Z) (row_index : option Z)
    (provider_name : string) model w :
  (∀ facade w1,
     AIIntegration_init rag_path open_store provider_name model w = (Ok facade, w1) →
     analyze_dataset_row_view backend py_repr rag_path open_store sample_row
       iterations row_index provider_name model w =
       (Ok match row_index with
           | Some _ => error_reply 400 "No dataset loaded. Please load a dataset first."
           | None => error_reply 500
                       "An unexpected error occurred: 'NoneType' object has no attribute 'sample'"
           end, w1))
  ∧ (∀ e w1,
       AIIntegration_init rag_path open_store provider_name model w = (Raise e, w1) →
       analyze_dataset_row_view backend py_repr rag_path open_store sample_row
         iterations row_index provider_name model w =
         (Ok (error_reply 400 ("Failed to initialize AI integration: " +:+ exc_str e)),
          w1))
  ∧ (∃ reply w',
       analyze_dataset_row_view backend py_repr rag_path open_store sample_row
         iterations row_index provider_name model w = (Ok reply, w')
       ∧ (status reply = 400 ∨ status reply = 500)).
Proof.
  assert (Hok : ∀ facade w1,
     AIIntegration_init rag_path open_store provider_name model w = (Ok facade, w1) →
     analyze_dataset_row_view backend py_repr rag_path open_store sample_row
       iterations row_index provider_name model w =
       (Ok match row_index with
           | Some _ => error_reply 400 "No dataset loaded. Please load a dataset first."
           | None => error_reply 500
                       "An unexpected error occurred: 'NoneType' object has no attribute 'sample'"
           end, w1)).
  { intros facade w1 Hinit. pose proof (init_no_dataset _ _ _ _ _ Hinit) as Hds.
    unfold analyze_dataset_row_view.
    unfold try_except, mbind, M_bind, bind at 1.
    rewrite get_ai_integration_run, Hinit.
    destruct row_index as [i|]; run.
    - unfold analyze_row. rewrite Hds. reflexivity.
    - rewrite Hds. reflexivity. }
  assert (Hfail : ∀ e w1,
       AIIntegration_init rag_path open_store provider_name model w = (Raise e, w1) →
       analyze_dataset_row_view backend py_repr rag_path open_store sample_row
         iterations row_index provider_name model w =
         (Ok (error_reply 400 ("Failed to initialize AI integration: " +:+ exc_str e)),
          w1)).
  { intros e w1 Hinit. unfold analyze_dataset_row_view.
    unfold try_except, mbind, M_bind, bind at 1.
    rewrite get_ai_integration_run, Hinit. reflexivity. }
  split_and!; [exact Hok | exact Hfail |].
  destruct (AIIntegration_init rag_path open_store provider_name model w)
    as [[facade|e] w1] eqn:Hinit.
  - rewrite (Hok _ _ eq_refl). eexists _, _. split; [done|].
    destruct row_index; [by left | by right].
  - rewrite (Hfail _ _ eq_refl). eexists _, _. split; [done | by left].
Qed.

Lemma load_dataset_run (facade : AIIntegration) dataset_path w1 :
  ∃ w2,
    (∃ message facade', load_dataset read_csv read_json facade dataset_path w1
                          = (Ok (message, facade'), w2))
    ∨ (∃ detail, load_dataset read_csv read_json facade dataset_path w1
                   = (Raise (mk_exc ValueError ("Failed to load dataset: " +:+ detail)), w2)).
Proof.
  unfold load_dataset. run.
  destruct (decide (lower (OsPath.splitext dataset_path).2 = ".csv"));
    [| destruct (decide (lower (OsPath.splitext dataset_path).2 = ".json"))].
  - destruct (read_csv dataset_path w1) as [[frame|cause] w2]; eauto 10.
  - destruct (read_json dataset_path w1) as [[frame|cause] w2]; eauto 10.
  - eauto 10.
Qed.

(** X21.  [load_dataset] answers 200 or 400 and nothing else.  Its 404
    for a dataset that is not found is out of reach: a reader that raises,
    a [FileNotFoundError] included, is reported by the facade as a
    [ValueError], and the view answers 400 with the facade's message. *)
Theorem X21_load_dataset_view_statuses (dataset_path provider_name : string) model w :
  (∃ reply w',
     load_dataset_view rag_path open_store read_csv read_json
       dataset_path provider_name model w = (Ok reply, w')
     ∧ (status reply = 200 ∨ status reply = 400))
  ∧ (∀ facade w1 cause w2,
       AIIntegration_init rag_path open_store provider_name model w = (Ok facade, w1) →
       lower (OsPath.splitext dataset_path).2 = ".csv" →
       read_csv dataset_path w1 = (Raise cause, w2) →
       load_dataset_view rag_path open_store read_csv read_json
         dataset_path provider_name model w =
         (Ok (error_reply 400 ("Failed to load dataset: " +:+ exc_str cause)), w2)).
Proof.
  split.
  - unfold load_dataset_view. unfold try_except, mbind, M_bind, bind at 1.
    rewrite get_ai_integration_run.
    destruct (AIIntegration_init rag_path open_store provider_name model w)
      as [[facade|e] w1] eqn:Hinit.
    + run. destruct (load_dataset_run facade dataset_path w1)
        as [w2 [(message & facade' & ->) | (detail & ->)]].
      * eexists _, _. split; [reflexivity | by left].
      * eexists _, _. split; [reflexivity | by right].
    + eexists _, _. split; [reflexivity | by right].
  - intros facade w1 cause w2 Hinit Hext Hread. unfold load_dataset_view.
    unfold try_except at 1. unfold mbind, M_bind, bind at 1.
    rewrite get_ai_integration_run, Hinit.
    unfold load_dataset. run. rewrite decide_True by done. by rewrite Hread.
Qed.

(** X22.  [generate_code] answers 200, 400 or 500.  It answers 200, with
    the generated text, exactly when the facade is constructed and the
    provider returns; it answers 500 only when the provider failed with an
    HTTP status error whose body decodes as JSON; every other failure, of
    the construction or of the provider, is a 400. *)
Theorem X22_generate_code_view_statuses (prompt provider_name : string) model w :
  ∃ reply w',
    generate_code_view backend py_repr rag_path open_store prompt provider_name model w
      = (Ok reply, w')
    ∧ (status reply = 200 ∨ status reply = 400 ∨ status reply = 500)
    ∧ (status reply = 200 ↔
         ∃ facade w1 code,
           AIIntegration_init rag_path open_store provider_name model w = (Ok facade, w1)
           ∧ backend (provider facade) (trace w1) (model_name facade) prompt = Ok code
           ∧ reply = {| status := 200; body := JObj [("generated_code", JStr code)] |})
    ∧ (status reply = 500 →
         ∃ facade w1 msg response value,
           AIIntegration_init rag_path open_store provider_name model w = (Ok facade, w1)
           ∧ backend (provider facade) (trace w1) (model_name facade) prompt
             = Raise (Exc_http_status msg response)
           ∧ json response = Some value).
Proof.
  unfold generate_code_view. unfold try_except, mbind, M_bind, bind at 1.
  rewrite get_ai_integration_run.
  destruct (AIIntegration_init rag_path open_store provider_name model w)
    as [[facade|e] w1] eqn:Hinit.
  - unfold bind at 1.
    destruct (generate_code backend py_repr facade prompt w1) as [[code|e] w2] eqn:Hgen.
    + apply generate_code_ok_inv in Hgen as [Hb ->].
      eexists _, _. split; [reflexivity|]. split_and!; [by left | | done].
      split; [intros _; by eauto 10 | done].
    + destruct (backend (provider facade) (trace w1) (model_name facade) prompt)
        as [code|e0] eqn:Hb.
      { rewrite (generate_code_returns _ _ _ _ _ _ Hb) in Hgen. done. }
      unfold on_error.
      destruct (generate_code_raises_class _ _ _ _ _ Hgen)
        as [-> | (-> & msg & response & value & Hraise & Hjson)].
      * eexists _, _. split; [reflexivity|]. split_and!; [by right; left | | done].
        split; [done|]. intros (? & ? & ? & [= <- <-] & Hok & _). congruence.
      * eexists _, _. split; [reflexivity|]. split_and!; [by right; right | |].
        -- split; [done|]. intros (? & ? & ? & [= <- <-] & Hok & _). congruence.
        -- intros _. by eauto 10.
  - eexists _, _. split; [reflexivity|]. split_and!; [by right; left | | done].
    split; [done|]. by intros (? & ? & ? & ? & _).
Qed.

(** X23.  [generate_project] stops at the first answer of the provider
    when it cannot use it, with one call made and nothing written: an
    answer that is not JSON is a 400; an answer that decodes to an object
    without ['tech_stack'] is a 500 that shows the missing key; an answer
    that decodes to anything but an object is a 500 as well. *)
Theorem X23_generate_project_view_first_answer (requirement output_dir provider_name : string)
    model w (facade : AIIntegration) w1 (answer : string) :
  AIIntegration_init rag_path open_store provider_name model w = (Ok facade, w1) →
  backend (provider facade) (trace w1) (model_name facade)
    (requirement_prompt requirement) = Ok answer →
  (json_loads answer = None →
     generate_project_view backend py_repr rag_path open_store json_loads PROJECT_ROOT
       subscript_error requirement output_dir provider_name model w =
       (Ok (error_reply 400 "Failed to parse AI response as JSON"),
        called facade (requirement_prompt requirement) w1))
  ∧ (∀ d, json_loads answer = Some (JObj d) → "tech_stack" ∉ dict_keys d →
       generate_project_view backend py_repr rag_path open_store json_loads PROJECT_ROOT
         subscript_error requirement output_dir provider_name model w =
         (Ok (error_reply 500 "An unexpected error occurred: 'tech_stack'"),
          called facade (requirement_prompt requirement) w1))
  ∧ (∀ value, json_loads answer = Some value → (∀ d, value ≠ JObj d) →
       generate_project_view backend py_repr rag_path open_store json_loads PROJECT_ROOT
         subscript_error requirement output_dir provider_name model w =
         (Ok (error_reply 500 ("An unexpected error occurred: " +:+ subscript_error value)),
          called facade (requirement_prompt requirement) w1)).
Proof.
  intros Hinit Hb.
  assert (Hstart : ∀ k : AIIntegration → M Reply,
    try_except (get_ai_integration rag_path open_store provider_name model ≫= k)
      on_error w = try_except (k facade) on_error w1).
  { intros k. unfold try_except, mbind, M_bind, bind.
    by rewrite get_ai_integration_run, Hinit. }
  unfold generate_project_view. rewrite Hstart. clear Hstart.
  unfold analyze_requirement, _parse_json_response. run.
  rewrite (generate_code_returns _ _ _ _ _ _ Hb).
  split_and!.
  - intros ->. reflexivity.
  - intros d -> Hkey. apply dict_get_None in Hkey.
    unfold getitem. rewrite Hkey. reflexivity.
  - intros value -> Hno. unfold getitem.
    destruct value as [| | | | | |d]; try reflexivity. by destruct (Hno d).
Qed.

Lemma open_read_raises path fs0 e :
  Os.open_read decode_error path fs0 = Raise e →
  e = Os.errno2 path
  ∨ (∃ bytes, Os.files fs0 !! Os.key path = Some bytes
              ∧ utf8_valid bytes = false
              ∧ e = mk_exc UnicodeDecodeError (decode_error bytes))
  ∨ e = mk_exc IsADirectoryError ("[Errno 21] Is a directory: '" +:+ path +:+ "'")
  ∨ e = mk_exc NotADirectoryError ("[Errno 20] Not a directory: '" +:+ path +:+ "'").
Proof.
  unfold Os.open_read. destruct (decide (path = "")); [intros [= <-]; by left|].
  destruct (Os.isdir fs0 (Os.key path)); [intros [= <-]; by right; right; left|].
  destruct (filter _ _); [|intros [= <-]; by right; right; right].
  destruct (Os.files fs0 !! Os.key path) as [bytes|] eqn:Hfile;
    [|intros [= <-]; by left].
  destruct (utf8_valid bytes) eqn:Hvalid; [done|].
  intros [= <-]. right; left. eauto.
Qed.

(** X24.  [analyze_file] reads before it calls the provider: a file that
    cannot be read is answered without any call, by the first clause that
    matches the error: a 404 that names the path as it was given (not the
    path that was opened) when the file is missing; a 400 with the
    decoder's message when its bytes are not valid text (a
    [UnicodeDecodeError] is a [ValueError]); and a 500 when the path is a
    directory or passes through a regular file.  The path opened is free
    of [".."]. *)
Theorem X24_analyze_file_view_unreadable (file_path provider_name : string) model w
    (facade : AIIntegration) w1 (e : Exc) :
  AIIntegration_init rag_path open_store provider_name model w = (Ok facade, w1) →
  ".." ∉ OsPath.components (OsPath.join PROJECT_ROOT file_path) →
  Os.open_read decode_error (OsPath.join PROJECT_ROOT file_path) (fs w1) = Raise e →
  analyze_file_view backend py_repr rag_path open_store PROJECT_ROOT decode_error
    file_path provider_name model w =
    (Ok (if isinstance e FileNotFoundError
         then error_reply 404 ("File not found: " +:+ file_path)
         else if isinstance e ValueError
         then error_reply 400 (exc_str e)
         else error_reply 500 ("An unexpected error occurred: " +:+ exc_str e)), w1)
  ∧ ((isinstance e FileNotFoundError = true
      ∧ e = Os.errno2 (OsPath.join PROJECT_ROOT file_path))
     ∨ (isinstance e FileNotFoundError = false ∧ isinstance e ValueError = true
        ∧ ∃ bytes,
            Os.files (fs w1) !! Os.key (OsPath.join PROJECT_ROOT file_path) = Some bytes
            ∧ utf8_valid bytes = false
            ∧ exc_str e = decode_error bytes)
     ∨ (isinstance e FileNotFoundError = false ∧ isinstance e ValueError = false
        ∧ isinstance e OSError = true)).
Proof.
  intros Hinit _ Hread. split.
  - unfold analyze_file_view.
    unfold try_except, mbind, M_bind, bind at 1.
    rewrite get_ai_integration_run, Hinit.
    unfold read_file. run. cbn [project_root]. rewrite Hread.
    destruct (isinstance e FileNotFoundError); [done|].
    unfold on_error. by destruct (isinstance e ValueError).
  - destruct (open_read_raises _ _ _ Hread)
      as [-> | [(bytes & Hfile & Hvalid & ->) | [-> | ->]]].
    + by left.
    + right; left. split_and!; [done | done | by eauto].
    + by right; right.
    + by right; right.
Qed.
End WebFacts.

Section WebExamples.
Import Py Run Providers AiIntegration FileManagement BulkGeneration WebApp Samples.

Lemma X21_load_dataset_view_statuses_witness :
  (load_dataset_view "rag_storage" no_store missing_file missing_file
     "data/rows.CSV" "ollama" None bare_world).1
  = Ok (error_reply 400
          "Failed to load dataset: [Errno 2] No such file or directory: 'data/rows.CSV'").
Proof.
  destruct (X21_load_dataset_view_statuses "rag_storage" no_store missing_file missing_file
              "data/rows.CSV" "ollama" None bare_world) as [_ Hraise].
  by rewrite (Hraise _ _ (Os.errno2 "data/rows.CSV") _ eq_refl eq_refl eq_refl).
Defined.

Lemma X23_generate_project_view_first_answer_witness :
  (generate_project_view echo_backend opaque_repr "rag_storage" no_store
     (decodes_to (JObj [("summary", JStr "a blog")])) "." not_subscriptable
     "a blog" "out" "ollama" None bare_world).1
  = Ok (error_reply 500 "An unexpected error occurred: 'tech_stack'").
Proof.
  destruct (X23_generate_project_view_first_answer echo_backend opaque_repr
              "rag_storage" no_store (decodes_to (JObj [("summary", JStr "a blog")]))
              "." not_subscriptable "a blog" "out" "ollama" None bare_world
              _ _ _ eq_refl eq_refl) as (_ & Hkey & _).
  rewrite (Hkey [("summary", JStr "a blog")] eq_refl); [done|]. not_in_list.
Defined.

Lemma X24_analyze_file_view_unreadable_witness :
  (analyze_file_view echo_backend opaque_repr "rag_storage" no_store "/srv/app"
     invalid_start_byte "missing.py" "ollama" None app_world).1
  = Ok (error_reply 404 "File not found: missing.py")
  ∧ (analyze_file_view echo_backend opaque_repr "rag_storage" no_store "/srv/app"
       invalid_start_byte "logo.png" "ollama" None app_world).1
    = Ok (error_reply 400
            "'utf-8' codec can't decode byte 0xff in position 0: invalid start byte")
  ∧ (analyze_file_view echo_backend opaque_repr "rag_storage" no_store "/srv/app"
       invalid_start_byte "notes.txt/x" "ollama" None app_world).1
    = Ok (error_reply 500
            "An unexpected error occurred: [Errno 20] Not a directory: '/srv/app/notes.txt/x'").
Proof.
  split_and!.
  - destruct (X24_analyze_file_view_unreadable echo_backend opaque_repr "rag_storage"
                no_store "/srv/app" invalid_start_byte "missing.py" "ollama" None
                app_world _ _ (Os.errno2 "/srv/app/missing.py") eq_refl) as [-> _];
      [not_in_list | reflexivity | reflexivity].
  - destruct (X24_analyze_file_view_unreadable echo_backend opaque_repr "rag_storage"
                no_store "/srv/app" invalid_start_byte "logo.png" "ollama" None
                app_world _ _
                (mk_exc UnicodeDecodeError
                   "'utf-8' codec can't decode byte 0xff in position 0: invalid start byte")
                eq_refl) as [-> _];
      [not_in_list | reflexivity | reflexivity].
  - destruct (X24_analyze_file_view_unreadable echo_backend opaque_repr "rag_storage"
                no_store "/srv/app" invalid_start_byte "notes.txt/x" "ollama" None
                app_world _ _
                (mk_exc NotADirectoryError
                   "[Errno 20] Not a directory: '/srv/app/notes.txt/x'")
                eq_refl) as [-> _];
      [not_in_list | reflexivity | reflexivity].
Defined.
End WebExamples.

(** ** The facade: how the reader of a dataset is chosen *)

Section ExtensionFacts.
Import Py Run Providers AiIntegration Samples.
Import OsPath.

Variable read_csv read_json : string → M DataFrame.

Implicit Types (l t e : list ascii) (w : World).

Lemma cut_last_sep_no_sep t : sep ∉ t → cut_last_sep t = ([], t).
Proof.
  induction t as [|c t IH]; [done|].
  rewrite not_elem_of_cons. intros [Hc Ht]. simpl.
  rewrite (IH Ht). by rewrite decide_False by congruence.
Qed.

(** The cut of [cut_last_sep] is the only one with a tail free of
    separators after a head that is empty or ends in one. *)
Lemma cut_last_sep_app (dir : list ascii) t :
  dir = [] ∨ (∃ d0, dir = d0 ++ [sep]) → sep ∉ t →
  cut_last_sep (dir ++ t) = (dir, t).
Proof.
  intros Hdir Ht. induction dir as [|c dir IH]; simpl.
  - by apply cut_last_sep_no_sep.
  - destruct Hdir as [? | [d0 Hd0]]; [done|].
    destruct dir as [|c' dir'].
    + destruct d0 as [|? [|? ?]]; simplify_eq/=.
      by rewrite (cut_last_sep_no_sep t Ht).
    + rewrite IH; [done|]. right.
      destruct d0 as [|c0 d0]; simplify_eq/=. by exists d0.
Qed.

Lemma cut_last_dot_no_dot t : extsep ∉ t → cut_last_dot t = (t, []).
Proof.
  induction t as [|c t IH]; [done|].
  rewrite not_elem_of_cons. intros [Hc Ht]. simpl.
  rewrite (IH Ht). by rewrite decide_False by congruence.
Qed.

Lemma cut_last_dot_app (pre : list ascii) e :
  extsep ∉ e → cut_last_dot (pre ++ extsep :: e) = (pre, extsep :: e).
Proof.
  intros He. induction pre as [|c pre IH]; simpl.
  - by rewrite (cut_last_dot_no_dot e He).
  - by rewrite IH.
Qed.

(** A last component with a stem that is not made of dots only, followed
    by a dot and dot-free text, is split at that dot. *)
Lemma splitext_ext (dir stem e : list ascii) :
  dir = [] ∨ (∃ d0, dir = d0 ++ [sep]) →
  sep ∉ stem → (∃ c, c ∈ stem ∧ c ≠ extsep) →
  sep ∉ e → extsep ∉ e →
  splitext (str (dir ++ stem ++ extsep :: e)) = (str (dir ++ stem), str (extsep :: e)).
Proof.
  intros Hdir Hstem (c & Hc & Hne) Hse He. unfold splitext. rewrite chars_str.
  rewrite cut_last_sep_app; [|done|].
  - rewrite (cut_last_dot_app stem e He).
    rewrite bool_decide_false by done.
    assert (forallb (λ c, bool_decide (c = extsep)) stem = false) as ->; [|done].
    apply not_true_iff_false. intros Hall.
    rewrite forallb_forall in Hall. apply list_elem_of_In, Hall in Hc.
    by apply bool_decide_eq_true in Hc.
  - rewrite elem_of_app, elem_of_cons. intros [? | [? | ?]]; done.
Qed.

(** A last component made of dots followed by dot-free text has no
    extension: leading dots start no extension. *)
Lemma splitext_none (dir rest : list ascii) (n : nat) :
  dir = [] ∨ (∃ d0, dir = d0 ++ [sep]) →
  sep ∉ rest → extsep ∉ rest →
  (splitext (str (dir ++ replicate n extsep ++ rest))).2 = "".
Proof.
  intros Hdir Hs Hd. unfold splitext. rewrite chars_str.
  rewrite cut_last_sep_app; [|done|].
  - destruct n as [|n].
    + simpl. by rewrite (cut_last_dot_no_dot rest Hd).
    + rewrite replicate_S_end, <- app_assoc. simpl.
      rewrite (cut_last_dot_app _ rest Hd).
      assert (forallb (λ c, bool_decide (c = extsep)) (replicate n extsep) = true) as ->.
      { apply forallb_forall. intros c Hc.
        apply list_elem_of_In, elem_of_replicate in Hc as [-> _].
        by apply bool_decide_eq_true. }
      by rewrite andb_false_r.
  - rewrite elem_of_app. intros [Hin | Hin]; [|done].
    by apply elem_of_replicate in Hin as [? _].
Qed.

Lemma lower_char_extsep (c : ascii) : lower_char c = extsep → c = extsep.
Proof.
  destruct c as [[] [] [] [] [] [] [] []]; vm_compute; congruence.
Qed.

(** An extension that lower-cases to a dot followed by letters is a dot
    followed by characters that are neither dots nor separators. *)
Lemma lower_extension_inv (ext : list ascii) (letters : list ascii) :
  lower (str ext) = str (extsep :: letters) →
  sep ∉ letters → extsep ∉ letters →
  ∃ e, ext = extsep :: e ∧ (sep ∉ e) ∧ (extsep ∉ e).
Proof.
  destruct ext as [|c e]; [done|]. simpl. intros [= Hc He] Hs Hd.
  apply lower_char_extsep in Hc as ->. exists e. split; [done|].
  clear -He Hs Hd. revert letters He Hs Hd.
  induction e as [|a e IH]; intros letters He Hs Hd.
  - split; apply not_elem_of_nil.
  - destruct letters as [|b letters]; [done|]. simpl in He.
    injection He as Ha He.
    apply not_elem_of_cons in Hs as [Hs1 Hs2].
    apply not_elem_of_cons in Hd as [Hd1 Hd2].
    destruct (IH letters He Hs2 Hd2) as [IH1 IH2].
    split; apply not_elem_of_cons; (split; [|done]); intros <-;
      vm_compute in Ha; by subst.
Qed.

(** X25.  The reader of a dataset is chosen by the text after the last dot
    of the last component, whatever its case: for a stem that is not made
    of dots, an extension that lower-cases to [.csv] hands the path, as
    given, to the CSV reader, and one that lower-cases to [.json] to the
    JSON reader; what the reader returns is loaded.  A last component
    that only starts with dots (a file named [.csv], or one without any
    dot) has no extension and is refused. *)
Theorem X25_load_dataset_reader (self : AIIntegration) (dir stem ext : list ascii) w :
  dir = [] ∨ (∃ d0, dir = d0 ++ [sep]) →
  sep ∉ stem → (∃ c, c ∈ stem ∧ c ≠ extsep) →
  (∀ frame w',
     (lower (str ext) = ".csv" ∧ read_csv (str (dir ++ stem ++ ext)) w = (Ok frame, w'))
     ∨ (lower (str ext) = ".json"
        ∧ read_json (str (dir ++ stem ++ ext)) w = (Ok frame, w')) →
     load_dataset read_csv read_json self (str (dir ++ stem ++ ext)) w =
       (Ok ("Dataset loaded successfully. Shape: ("
            +:+ pretty (length (df_rows frame)) +:+ ", "
            +:+ pretty (df_columns frame) +:+ ")",
            {| provider := provider self; model_name := model_name self;
               dataset := Some (df_rows frame) |}), w'))
  ∧ (∀ (n : nat) rest, sep ∉ rest → extsep ∉ rest →
       load_dataset read_csv read_json self
         (str (dir ++ replicate n extsep ++ rest)) w =
         (Raise (mk_exc ValueError
                   "Failed to load dataset: Unsupported file format: "), w)).
Proof.
  intros Hdir Hstem Hc. split.
  - intros frame w' [[Hext Hread] | [Hext Hread]].
    + destruct (lower_extension_inv ext (chars "csv")) as (e & -> & Hs & Hd);
        [done | not_in_list | not_in_list |].
      unfold load_dataset. run.
      rewrite (splitext_ext dir stem e Hdir Hstem Hc Hs Hd).
      cbn [snd]. rewrite decide_True by done. by rewrite Hread.
    + destruct (lower_extension_inv ext (chars "json")) as (e & -> & Hs & Hd);
        [done | not_in_list | not_in_list |].
      unfold load_dataset. run.
      rewrite (splitext_ext dir stem e Hdir Hstem Hc Hs Hd).
      cbn [snd]. rewrite decide_False by (rewrite Hext; done).
      rewrite decide_True by done. by rewrite Hread.
  - intros n rest Hs Hd. unfold load_dataset. run.
    rewrite (splitext_none dir rest n Hdir Hs Hd).
    reflexivity.
Qed.
End ExtensionFacts.

Section ExtensionExamples.
Import Py Run Providers AiIntegration Samples.
Import OsPath.

Lemma X25_load_dataset_reader_witness :
  load_dataset two_rows_reader missing_file local_facade "data/rows.v2.CSV" bare_world
    = (Ok ("Dataset loaded successfully. Shape: (2, 2)", local_facade), bare_world)
  ∧ load_dataset two_rows_reader missing_file local_facade "data/.csv" bare_world
    = (Raise (mk_exc ValueError "Failed to load dataset: Unsupported file format: "),
       bare_world).
Proof.
  destruct (X25_load_dataset_reader two_rows_reader missing_file local_facade
              (chars "data/") (chars "rows.v2") (chars ".CSV") bare_world)
    as [Hread Hnone].
  - right. by exists (chars "data").
  - not_in_list.
  - exists "r"%char. split; [|done]. apply list_elem_of_here.
  - split.
    + apply (Hread {| df_rows := two_rows; df_columns := 2 |} bare_world).
      left. split; reflexivity.
    + apply (Hnone 1%nat (chars "csv")); not_in_list.
Defined.
End ExtensionExamples.
